(** * ClusterWrap: environment selection and cluster-wrapper lifecycle

    A shallow embedding of [ClusterWrap/__init__.py] (the import-time choice of
    the default cluster factory) and of [ClusterWrap/clusters.py] (the wrapper
    classes [_cluster], [slurm_cluster], [local_cluster], [remote_cluster]),
    followed by the properties of the specification that concern them. *)

From Stdlib Require Import ZArith String List DecimalString.
From stdpp Require Import base gmap strings list fin_maps.

Local Open Scope string_scope.
Local Open Scope list_scope.
Local Open Scope Z_scope.

(* ===================================================================== *)
(** ** Environment selector ([ClusterWrap/__init__.py])                   *)
(* ===================================================================== *)

Module Selector.

(** The three callables the module-level name [cluster] can be bound to.
    [janelia_lsf_cluster] is imported from [clusters_lsf]; only its
    identity matters here. *)
Inductive factory := local_cluster | janelia_lsf_cluster | slurm_cluster.

#[global] Instance factory_eq_dec : EqDecision factory.
Proof. solve_decision. Defined.

(** What the host answers to the two probes the module performs:
    [shutil.which name] (a path or [None]) and [os.system cmd] (the raw
    wait status). *)
Record host := {
  which : string -> option string;
  system : string -> Z;
}.

(** [os.WEXITSTATUS]: bits 8..15 of the raw wait status. *)
Definition WEXITSTATUS (status : Z) : Z := Z.land (Z.shiftr status 8) 255.

(** The state the module body threads: the current binding of [cluster]
    and the shell commands executed so far, oldest first. *)
Record sel := { binding : factory; executed : list string }.

Definition run_system (h : host) (cmd : string) (s : sel) : Z * sel :=
  (system h cmd, {| binding := binding s; executed := executed s ++ [cmd] |}).

Definition assign (f : factory) (s : sel) : sel :=
  {| binding := f; executed := executed s |}.

(** Line 6: [cluster = local_cluster]. *)
Definition initial : sel := {| binding := local_cluster; executed := [] |}.

(** Lines 8-10:
    [if which('bsub') is not None:
         if os.system('bsub -V') != 32512: cluster = janelia_lsf_cluster] *)
Definition bsub_check (h : host) (s : sel) : sel :=
  match which h "bsub" with
  | Some _ =>
      let '(status, s1) := run_system h "bsub -V" s in
      if negb (status =? 32512) then assign janelia_lsf_cluster s1 else s1
  | None => s
  end.

(** Lines 12-18:
    [if which('srun') is not None:
         exit_status = os.system('srun --version')
         if os.WEXITSTATUS(exit_status) == 0: cluster = slurm_cluster] *)
Definition srun_check (h : host) (s : sel) : sel :=
  match which h "srun" with
  | Some _ =>
      let '(exit_status, s1) := run_system h "srun --version" s in
      if (WEXITSTATUS exit_status =? 0) then assign slurm_cluster s1 else s1
  | None => s
  end.

(** The whole module body: the two [if] statements run one after the
    other. *)
Definition module_body (h : host) : sel := srun_check h (bsub_check h initial).

(** The value of [ClusterWrap.cluster] after import. *)
Definition cluster (h : host) : factory := binding (module_body h).

(** Hosts used as concrete inputs. [host_of bsub srun] has [bsub] on the
    path iff [bsub] is [Some status] (and then [bsub -V] yields that raw
    status), and likewise for [srun]. *)
Definition host_of (bsub srun : option Z) : host :=
  {| which := fun name =>
       if String.eqb name "bsub" then (fun _ => "/usr/bin/bsub") <$> bsub
       else if String.eqb name "srun" then (fun _ => "/usr/bin/srun") <$> srun
       else None;
     system := fun cmd =>
       if String.eqb cmd "bsub -V" then default 32512 bsub
       else if String.eqb cmd "srun --version" then default 32512 srun
       else 32512 |}.

End Selector.

(* ===================================================================== *)
(** ** Cluster wrappers ([ClusterWrap/clusters.py])                       *)
(* ===================================================================== *)

Module Clusters.

(** *** Values and external objects *)

(** The Python values that flow through the wrapper: option values of the
    configuration dictionary and keyword arguments handed to the backend. *)
Inductive pyval :=
| VNone
| VBool (b : bool)
| VInt (z : Z)
| VStr (s : string)
| VStrs (l : list string).

(** A Python [dict] with string keys. *)
Abbreviation dict := (gmap string pyval).

(** [str(n)] for an [int]. *)
Definition str (n : Z) : string := NilZero.string_of_int (Z.to_int n).

(** [f"{v}"] for a value that is an [int] or [None]. *)
Definition fmt (v : option Z) : string :=
  match v with Some n => str n | None => "None" end.

(** Which backend class a worker pool is an instance of. [Foreign] is a
    pool built elsewhere and handed to [remote_cluster]. *)
Inductive backend := SLURM | Local | Foreign.

(** The part of a backend cluster object the wrapper reads or writes:
    [cluster.new_spec['options']] and [cluster.dashboard_link]. *)
Record cluster_obj := {
  backend_of : backend;
  new_spec_options : dict;
  dashboard_link : string;
}.

(** A [distributed.Client]; the wrapper only ever closes it. *)
Inductive client_obj : Set := TheClient.

(** The object returned by [cluster.adapt(...)], holding the arguments it
    was created with. [None] stands for Python's [None]. *)
Record adaptive := {
  minimum_jobs : option Z;
  maximum_jobs : option Z;
  interval : string;
  wait_count : Z;
}.

(** The triple [(exc_type, exc_value, traceback)] passed to [__exit__]:
    [None] on a normal exit, the exception's name otherwise. *)
Definition exc_info := option string.

(** Operations performed on the outside world, in program order. *)
Inductive event :=
| EvOpenWrite (path : string)
| EvRemove (path : string)
| EvMkdir (path : string)
| EvPrint (line : string)
| EvFlush
| EvNewSLURMCluster (kwargs : dict)
| EvNewLocalCluster (kwargs : dict)
| EvNewClient
| EvClientClose
| EvClusterExit (exc : exc_info)
| EvScale (n : Z)
| EvSetOption (k : string) (v : pyval)
| EvAdapt (a : adaptive).

(** Exceptions: the three the wrapper code itself can provoke, and the
    failure of an external operation. *)
Inductive exn :=
| AttributeError (name : string)
| KeyError (key : string)
| TypeError (what : string)
| Failed (e : event).

Inductive result (A : Type) :=
| Ok (a : A)
| Raise (x : exn).
Arguments Ok {A} a.
Arguments Raise {A} x.

(** *** The process environment *)

(** Everything the code reads from its surroundings and does not change:
    [str(Path.home())], [os.getcwd()], [os.getpid()], [os.environ], which
    external operations raise, what [yaml.dump] produces, and the
    dashboard link of pools the backends create. *)
Record env := {
  home : string;
  cwd : string;
  pid : Z;
  environ : gmap string string;
  fails : event -> bool;
  yaml_dump : dict -> string;
  backend_dashboard : string;
}.

(** *** The wrapper object and the mutable state *)

(** Attributes of a wrapper instance. For [client] and [cluster], [None]
    is Python's [None]; for [yaml_path], [persist_yaml] and [ncpus],
    [None] means the attribute has not been assigned; for [adapt],
    [min_workers] and [max_workers], which only [slurm_cluster] has and
    always assigns, [None] is Python's [None]. *)
Record wrapper := {
  client : option client_obj;
  cluster : option cluster_obj;
  yaml_path : option string;
  persist_yaml : option bool;
  adapt : option adaptive;
  ncpus : option Z;
  min_workers : option Z;
  max_workers : option Z;
}.

(** A freshly allocated instance, before any [__init__] has run. *)
Definition blank : wrapper :=
  {| client := None; cluster := None; yaml_path := None;
     persist_yaml := None; adapt := None; ncpus := None;
     min_workers := None; max_workers := None |}.

(** [self], [dask.config.config], the files on disk (path to content) and
    the log of external operations, oldest first. *)
Record state := {
  self : wrapper;
  dask_config : dict;
  fs : gmap string string;
  log : list event;
}.

Definition with_client (c : option client_obj) (w : wrapper) : wrapper :=
  {| client := c; cluster := cluster w; yaml_path := yaml_path w;
     persist_yaml := persist_yaml w; adapt := adapt w; ncpus := ncpus w;
     min_workers := min_workers w; max_workers := max_workers w |}.
Definition with_cluster (c : option cluster_obj) (w : wrapper) : wrapper :=
  {| client := client w; cluster := c; yaml_path := yaml_path w;
     persist_yaml := persist_yaml w; adapt := adapt w; ncpus := ncpus w;
     min_workers := min_workers w; max_workers := max_workers w |}.
Definition with_yaml_path (p : option string) (w : wrapper) : wrapper :=
  {| client := client w; cluster := cluster w; yaml_path := p;
     persist_yaml := persist_yaml w; adapt := adapt w; ncpus := ncpus w;
     min_workers := min_workers w; max_workers := max_workers w |}.
Definition with_persist_yaml (b : option bool) (w : wrapper) : wrapper :=
  {| client := client w; cluster := cluster w; yaml_path := yaml_path w;
     persist_yaml := b; adapt := adapt w; ncpus := ncpus w;
     min_workers := min_workers w; max_workers := max_workers w |}.
Definition with_adapt (a : option adaptive) (w : wrapper) : wrapper :=
  {| client := client w; cluster := cluster w; yaml_path := yaml_path w;
     persist_yaml := persist_yaml w; adapt := a; ncpus := ncpus w;
     min_workers := min_workers w; max_workers := max_workers w |}.
Definition with_ncpus (n : option Z) (w : wrapper) : wrapper :=
  {| client := client w; cluster := cluster w; yaml_path := yaml_path w;
     persist_yaml := persist_yaml w; adapt := adapt w; ncpus := n;
     min_workers := min_workers w; max_workers := max_workers w |}.
Definition with_min_workers (n : option Z) (w : wrapper) : wrapper :=
  {| client := client w; cluster := cluster w; yaml_path := yaml_path w;
     persist_yaml := persist_yaml w; adapt := adapt w; ncpus := ncpus w;
     min_workers := n; max_workers := max_workers w |}.
Definition with_max_workers (n : option Z) (w : wrapper) : wrapper :=
  {| client := client w; cluster := cluster w; yaml_path := yaml_path w;
     persist_yaml := persist_yaml w; adapt := adapt w; ncpus := ncpus w;
     min_workers := min_workers w; max_workers := n |}.

Definition with_options (o : dict) (c : cluster_obj) : cluster_obj :=
  {| backend_of := backend_of c; new_spec_options := o;
     dashboard_link := dashboard_link c |}.

(** *** A state-and-exception monad *)

Definition M (A : Type) : Type := state -> result A * state.

#[global] Instance M_ret : MRet M := fun A a s => (Ok a, s).
#[global] Instance M_bind : MBind M := fun A B k m s =>
  match m s with
  | (Ok a, s') => k a s'
  | (Raise x, s') => (Raise x, s')
  end.

Definition raise {A} (x : exn) : M A := fun s => (Raise x, s).
Definition get {A} (f : state -> A) : M A := fun s => (Ok (f s), s).
Definition update (f : state -> state) : M unit := fun s => (Ok tt, f s).

Definition set_self (f : wrapper -> wrapper) : M unit :=
  update (fun s => {| self := f (self s); dask_config := dask_config s;
                      fs := fs s; log := log s |}).
Definition set_dask_config (f : dict -> dict) : M unit :=
  update (fun s => {| self := self s; dask_config := f (dask_config s);
                      fs := fs s; log := log s |}).
Definition set_fs (f : gmap string string -> gmap string string) : M unit :=
  update (fun s => {| self := self s; dask_config := dask_config s;
                      fs := f (fs s); log := log s |}).

(** Record an operation that cannot raise. *)
Definition emit (e : event) : M unit :=
  update (fun s => {| self := self s; dask_config := dask_config s;
                      fs := fs s; log := log s ++ [e] |}).

(** Read an attribute of [self] (or call a method on an attribute that
    may be [None]). *)
Definition getattr {A} (name : string) (field : wrapper -> option A) : M A :=
  fun s => match field (self s) with
           | Some a => (Ok a, s)
           | None => (Raise (AttributeError name), s)
           end.

(** Python's [pass]. *)
Definition pass : M unit := mret tt.

Fixpoint for_each {A} (f : A -> M unit) (l : list A) : M unit :=
  match l with
  | [] => pass
  | x :: l' => f x ;; for_each f l'
  end.

(** *** The operations *)

Section operations.
Context (E : env).

(** Perform an external operation: it is logged, then raises if the
    environment says so. *)
Definition call (e : event) : M unit :=
  emit e ;; if fails E e then raise (Failed e) else pass.

(** Modelled from the spec: [dask.config.set] belongs to the dask
    library, which is not part of this repository. The specification
    describes the process-wide configuration as a mapping of dotted
    option names to values merged shallowly: the given options replace
    matching keys, every other key is retained. *)
Definition dask_config_set (options : dict) : M unit :=
  set_dask_config (fun config => options ∪ config).

(** [with open(path, 'w') as f: yaml.dump(config, f, ...)] *)
Definition write_yaml (path : string) (config : dict) : M unit :=
  call (EvOpenWrite path) ;;
  set_fs (insert path (yaml_dump E config)).

(** [os.path.exists(path)] *)
Definition os_path_exists (path : string) : M bool :=
  get (fun s => bool_decide (is_Some (fs s !! path))).

(** [os.remove(path)] *)
Definition os_remove (path : string) : M unit :=
  call (EvRemove path) ;;
  set_fs (delete path).

(** **** class [_cluster] *)

(** [_cluster.__init__] *)
Definition _cluster__init__ : M unit :=
  set_self (with_client None) ;;
  set_self (with_cluster None).

(** [_cluster.__exit__(exc_type, exc_value, traceback)] *)
Definition _cluster__exit__ (exc : exc_info) : M unit :=
  persist ← getattr "persist_yaml" persist_yaml ;
  (if negb persist then
     path ← getattr "yaml_path" yaml_path ;
     present ← os_path_exists path ;
     if (present : bool) then os_remove path else pass
   else pass) ;;
  _ ← getattr "client.close" client ;
  call EvClientClose ;;
  _ ← getattr "cluster.__exit__" cluster ;
  call (EvClusterExit exc).

(** [_cluster.set_client], [_cluster.set_cluster] *)
Definition set_client (c : client_obj) : M unit :=
  set_self (with_client (Some c)).
Definition set_cluster (c : cluster_obj) : M unit :=
  set_self (with_cluster (Some c)).

(** [_cluster.modify_dask_config(options, yaml_name, persist_yaml)].
    [None] for [yaml_name] or [persist_yaml] is an omitted argument,
    which takes the default ['ClusterWrap.yaml'], respectively
    [False]. *)
Definition modify_dask_config (options : dict)
    (yaml_name : option string) (persist : option bool) : M unit :=
  let yaml_name := default "ClusterWrap.yaml" yaml_name in
  let persist := default false persist in
  dask_config_set options ;;
  let path := home E +:+ "/.config/dask/" +:+ yaml_name in
  config ← get dask_config ;
  write_yaml path config ;;
  set_self (with_yaml_path (Some path)) ;;
  set_self (with_persist_yaml (Some persist)).

(** [_cluster.get_dashboard] *)
Definition get_dashboard : M (option string) :=
  c ← get (fun s => cluster (self s)) ;
  mret (dashboard_link <$> c).

(** **** class [slurm_cluster] *)

(** [slurm_cluster.adapt_cluster(min_workers, max_workers)] *)
Definition adapt_cluster (mn mx : option Z) : M unit :=
  (if mn is Some _ then set_self (with_min_workers mn) else pass) ;;
  (if mx is Some _ then set_self (with_max_workers mx) else pass) ;;
  _ ← getattr "cluster.adapt" cluster ;
  lo ← get (fun s => min_workers (self s)) ;
  hi ← get (fun s => max_workers (self s)) ;
  let a := {| minimum_jobs := lo; maximum_jobs := hi;
              interval := "10s"; wait_count := 6 |} in
  call (EvAdapt a) ;;
  set_self (with_adapt (Some a)) ;;
  nc ← getattr "ncpus" ncpus ;
  emit (EvPrint ("Cluster adapting between " +:+ fmt lo +:+ " and "
                 +:+ fmt hi +:+ " workers with " +:+ str nc
                 +:+ " cores per worker")).

(** [self.cluster.new_spec['options'][k] = v] *)
Definition set_option (kv : string * pyval) : M unit :=
  c ← getattr "cluster.new_spec" cluster ;
  emit (EvSetOption kv.1 kv.2) ;;
  set_self (with_cluster
              (Some (with_options (<[kv.1 := kv.2]> (new_spec_options c)) c))).

(** [slurm_cluster.change_worker_attributes(min_workers, max_workers,
    **kwargs)]; [kwargs] in the order the caller wrote them. *)
Definition change_worker_attributes (mn mx : option Z)
    (kwargs : list (string * pyval)) : M unit :=
  _ ← getattr "cluster.scale" cluster ;
  call (EvScale 0) ;;
  for_each set_option kwargs ;;
  adapt_cluster mn mx.

(** [custom_SLURMCluster(cores=..., processes=..., memory=...,
    walltime=..., job_script_prologue=..., **kwargs)]: a keyword given
    both explicitly and through [kwargs] is a [TypeError]; otherwise
    the backend builds a pool whose per-worker option template holds
    the keywords it was given. *)
Definition new_SLURMCluster (explicit : list (string * pyval))
    (kwargs : dict) : M cluster_obj :=
  if bool_decide (Exists (fun kv => is_Some (kwargs !! kv.1)) explicit)
  then raise (TypeError "multiple values for keyword argument")
  else
    let all := kwargs ∪ list_to_map explicit in
    call (EvNewSLURMCluster all) ;;
    mret {| backend_of := SLURM; new_spec_options := all;
            dashboard_link := backend_dashboard E |}.

(** [LocalCluster( **kwargs)] *)
Definition new_LocalCluster (kwargs : dict) : M cluster_obj :=
  call (EvNewLocalCluster kwargs) ;;
  mret {| backend_of := Local; new_spec_options := kwargs;
          dashboard_link := backend_dashboard E |}.

(** [Client(cluster)] *)
Definition new_Client (c : cluster_obj) : M client_obj :=
  call EvNewClient ;; mret TheClient.

(** [slurm_cluster.__init__(ncpus, processes, threads, min_workers,
    max_workers, walltime, config, **kwargs)]. Python hands [__init__] a
    [kwargs] without any of its parameter names (see [construct]). *)
Definition slurm_cluster__init__ (ncpus processes : Z) (threads : option Z)
    (min_workers max_workers : option Z) (walltime : string)
    (config : dict) (kwargs : dict) : M unit :=
  _cluster__init__ ;;
  USER ← (if environ E !! "USER" is Some u then mret u
          else raise (KeyError "USER") : M string) ;
  let config_defaults : dict := list_to_map [
    ("temporary-directory", VStr ("/local/workdir/temp/" +:+ USER +:+ "/"));
    ("distributed.comm.timeouts.connect", VStr "180s");
    ("distributed.comm.timeouts.tcp", VStr "360s") ] in
  let config_defaults := config ∪ config_defaults in
  modify_dask_config config_defaults None None ;;
  set_self (with_adapt None) ;;
  set_self (with_ncpus (Some ncpus)) ;;
  set_self (with_min_workers min_workers) ;;
  set_self (with_max_workers max_workers) ;;
  let tpw := 2 * ncpus in
  let job_script_prologue := [
    "export MKL_NUM_THREADS=" +:+ str tpw;
    "export NUM_MKL_THREADS=" +:+ str tpw;
    "export OPENBLAS_NUM_THREADS=" +:+ str tpw;
    "export OPENMP_NUM_THREADS=" +:+ str tpw;
    "export OMP_NUM_THREADS=" +:+ str tpw ] in
  let CWD := cwd E in
  let PID := pid E in
  let kwargs :=
    if kwargs !! "local_directory" is None
    then <["local_directory" := VStr (CWD +:+ "/dask_workers/")]> kwargs
    else kwargs in
  kwargs ← (if kwargs !! "log_directory" is None
            then
              let log_dir :=
                CWD +:+ "/dask_worker_logs_" +:+ str PID +:+ "/" in
              call (EvMkdir log_dir) ;;
              mret (<["log_directory" := VStr log_dir]> kwargs)
            else mret kwargs : M dict) ;
  let memory := str (15 * ncpus) +:+ "GB" in
  let threads := default ncpus threads in
  emit (EvPrint ("memory requested: " +:+ memory)) ;;
  cluster ← new_SLURMCluster [
    ("cores", VInt threads);
    ("processes", VInt processes);
    ("memory", VStr memory);
    ("walltime", VStr walltime);
    ("job_script_prologue", VStrs job_script_prologue) ] kwargs ;
  client ← new_Client cluster ;
  set_cluster cluster ;;
  set_client client ;;
  emit (EvPrint ("Cluster dashboard link:  " +:+ dashboard_link cluster)) ;;
  emit EvFlush ;;
  adapt_cluster min_workers max_workers.

(** [slurm_cluster.__exit__]: defers to the base class. *)
Definition slurm_cluster__exit__ (exc : exc_info) : M unit :=
  _cluster__exit__ exc.

(** **** class [local_cluster] *)

(** [local_cluster.__init__(config, memory_limit, **kwargs)]. Python
    hands [__init__] a [kwargs] without any of its parameter names (see
    [construct]). *)
Definition local_cluster__init__ (config : dict)
    (memory_limit : option pyval) (kwargs : dict) : M unit :=
  _cluster__init__ ;;
  let config_defaults : dict := ∅ in
  let config := config ∪ config_defaults in
  modify_dask_config config None None ;;
  let kwargs :=
    if kwargs !! "host" is None then <["host" := VStr ""]> kwargs
    else kwargs in
  let kwargs :=
    if memory_limit is Some v then <["memory_limit" := v]> kwargs
    else kwargs in
  cluster ← new_LocalCluster kwargs ;
  client ← new_Client cluster ;
  set_cluster cluster ;;
  set_client client.

(** **** class [remote_cluster] *)

(** [remote_cluster.__init__(cluster, config)] *)
Definition remote_cluster__init__ (cluster : cluster_obj)
    (config : dict) : M unit :=
  _cluster__init__ ;;
  let config_defaults : dict := ∅ in
  let config := config ∪ config_defaults in
  modify_dask_config config None None ;;
  client ← new_Client cluster ;
  set_cluster cluster ;;
  set_client client.

(** **** Instantiating a wrapper class *)

(** A call of one of the three public constructors, with its
    arguments. *)
Inductive constructor_call :=
| Call_slurm_cluster (ncpus processes : Z)
    (threads min_workers max_workers : option Z) (walltime : string)
    (config kwargs : dict)
| Call_local_cluster (config : dict) (memory_limit : option pyval)
    (kwargs : dict)
| Call_remote_cluster (cluster : cluster_obj) (config : dict).

(** The parameter names of the constructor called, [self] included. *)
Definition parameter_names (c : constructor_call) : list string :=
  match c with
  | Call_slurm_cluster _ _ _ _ _ _ _ _ =>
      ["self"; "ncpus"; "processes"; "threads"; "min_workers";
       "max_workers"; "walltime"; "config"]
  | Call_local_cluster _ _ _ => ["self"; "config"; "memory_limit"]
  | Call_remote_cluster _ _ => ["self"; "cluster"; "config"]
  end.

(** The keywords of the call beyond its named arguments, which Python
    collects in the [**kwargs] of [__init__] ([remote_cluster] takes
    none). *)
Definition extra_keywords (c : constructor_call) : dict :=
  match c with
  | Call_slurm_cluster _ _ _ _ _ _ _ kwargs => kwargs
  | Call_local_cluster _ _ kwargs => kwargs
  | Call_remote_cluster _ _ => ∅
  end.

(** Python binds the arguments to the parameters of [__init__] first: a
    keyword that names a parameter a second time is a [TypeError], raised
    before the body of [__init__] runs, so the [kwargs] an [__init__]
    receives never holds one of its parameter names. Otherwise a blank
    instance is allocated and the class's [__init__] runs on it. *)
Definition construct (c : constructor_call) : M unit :=
  if bool_decide (Exists (fun name => is_Some (extra_keywords c !! name))
                    (parameter_names c))
  then raise (TypeError "multiple values for argument")
  else
    set_self (fun _ => blank) ;;
    match c with
    | Call_slurm_cluster ncpus processes threads lo hi walltime config kwargs =>
        slurm_cluster__init__ ncpus processes threads lo hi walltime
          config kwargs
    | Call_local_cluster config memory_limit kwargs =>
        local_cluster__init__ config memory_limit kwargs
    | Call_remote_cluster cluster config =>
        remote_cluster__init__ cluster config
    end.

End operations.

(** *** Vocabulary for stating the properties *)

(** The state after one more logged operation. *)
Definition logged (e : event) (s : state) : state :=
  {| self := self s; dask_config := dask_config s; fs := fs s;
     log := log s ++ [e] |}.

(** The operations logged between state [s] and a later state [s']. *)
Definition new_events (s s' : state) : list event :=
  drop (length (log s)) (log s').

(** The five thread-count variables of the numeric libraries. *)
Definition thread_count_variables : list string :=
  ["MKL_NUM_THREADS"; "NUM_MKL_THREADS"; "OPENBLAS_NUM_THREADS";
   "OPENMP_NUM_THREADS"; "OMP_NUM_THREADS"].

(** The shell statement [export VAR=n]. *)
Definition export_statement (n : Z) (var : string) : string :=
  "export " +:+ var +:+ "=" +:+ str n.

(** The option template after the overrides [kwargs] have been written
    into it one by one. *)
Definition apply_overrides (kwargs : list (string * pyval)) (o : dict) : dict :=
  foldl (fun o kv => <[kv.1 := kv.2]> o) o kwargs.

(** The log entries of writing the overrides [kwargs]. *)
Definition override_events (kwargs : list (string * pyval)) : list event :=
  map (fun kv => EvSetOption kv.1 kv.2) kwargs.

(** The adaptive-scaling policy [adapt_cluster] installs for bounds [lo]
    and [hi]. *)
Definition policy (lo hi : option Z) : adaptive :=
  {| minimum_jobs := lo; maximum_jobs := hi;
     interval := "10s"; wait_count := 6 |}.

Section observations.
Context (E : env).

(** The file-cleanup step [__exit__] will attempt in state [s]: the
    removal of the configuration file when persistence is off and the
    file is there. *)
Definition cleanup (s : state) : list event :=
  match persist_yaml (self s), yaml_path (self s) with
  | Some false, Some p =>
      if bool_decide (is_Some (fs s !! p)) then [EvRemove p] else []
  | _, _ => []
  end.

(** The teardown steps of [__exit__], in program order. *)
Definition teardown_steps (exc : exc_info) (s : state) : list event :=
  cleanup s ++ [EvClientClose; EvClusterExit exc].

(** The steps actually attempted: everything up to and including the
    first one that raises. *)
Fixpoint attempted (steps : list event) : list event :=
  match steps with
  | [] => []
  | e :: rest => e :: (if fails E e then [] else attempted rest)
  end.

(** A wrapper on which every attribute [__exit__] reads is in place, as
    every public constructor leaves it. *)
Definition constructed (w : wrapper) : Prop :=
  is_Some (client w) /\ is_Some (cluster w) /\
  is_Some (yaml_path w) /\ is_Some (persist_yaml w).

(** The files left by a run of the attempted steps: a removal that was
    attempted and did not raise deletes its file. *)
Definition fs_after (steps : list event) (files : gmap string string) :
    gmap string string :=
  match steps with
  | EvRemove p :: _ => if fails E (EvRemove p) then files else delete p files
  | _ => files
  end.

(** Where [modify_dask_config] puts the configuration file. *)
Definition config_file (yaml_name : option string) : string :=
  home E +:+ "/.config/dask/" +:+ default "ClusterWrap.yaml" yaml_name.

End observations.

(** *** Vocabulary for the constructors *)

(** The configuration defaults of [slurm_cluster] for user [user]. *)
Definition slurm_config_defaults (user : string) : dict :=
  list_to_map [
    ("temporary-directory", VStr ("/local/workdir/temp/" +:+ user +:+ "/"));
    ("distributed.comm.timeouts.connect", VStr "180s");
    ("distributed.comm.timeouts.tcp", VStr "360s") ].

(** The keywords [slurm_cluster] passes to the backend by name. *)
Definition slurm_explicit (ncpus processes : Z) (threads : option Z)
    (walltime : string) : list (string * pyval) :=
  [ ("cores", VInt (default ncpus threads));
    ("processes", VInt processes);
    ("memory", VStr (str (15 * ncpus) +:+ "GB"));
    ("walltime", VStr walltime);
    ("job_script_prologue",
     VStrs (export_statement (2 * ncpus) <$> thread_count_variables)) ].

(** The names of those keywords. *)
Definition reserved_keywords : list string :=
  ["cores"; "processes"; "memory"; "walltime"; "job_script_prologue"].

Section constructor_vocabulary.
Context (E : env).

(** The default log directory of [slurm_cluster]. *)
Definition default_log_directory : string :=
  cwd E +:+ "/dask_worker_logs_" +:+ str (pid E) +:+ "/".

(** The default scratch directory of [slurm_cluster]. *)
Definition default_local_directory : string := cwd E +:+ "/dask_workers/".

(** The caller's keywords after [slurm_cluster] has filled in the two
    directory defaults. *)
Definition slurm_kwargs (kwargs : dict) : dict :=
  let kw :=
    if kwargs !! "local_directory" is None
    then <["local_directory" := VStr default_local_directory]> kwargs
    else kwargs in
  if kw !! "log_directory" is None
  then <["log_directory" := VStr default_log_directory]> kw
  else kw.

(** The caller's keywords after [local_cluster] has filled in [host] and
    [memory_limit]. *)
Definition local_kwargs (memory_limit : option pyval) (kwargs : dict) : dict :=
  let kw :=
    if kwargs !! "host" is None then <["host" := VStr ""]> kwargs
    else kwargs in
  if memory_limit is Some v then <["memory_limit" := v]> kw else kw.

End constructor_vocabulary.

(** *** Concrete inputs *)

(** A process of user [ada] in [/work]; [bad] tells which external
    operations raise; [yaml.dump] is replaced by a listing of the keys. *)
Definition sample_env (bad : event -> bool) : env :=
  {| home := "/home/ada"; cwd := "/work"; pid := 4242;
     environ := {[ "USER" := "ada" ]};
     fails := bad;
     yaml_dump := fun config => String.concat "," (map_to_list config).*1;
     backend_dashboard := "http://127.0.0.1:8787/status" |}.

Definition nothing_fails : event -> bool := fun _ => false.
Definition client_close_fails : event -> bool :=
  fun e => if e is EvClientClose then true else false.
Definition remove_fails : event -> bool :=
  fun e => if e is EvRemove _ then true else false.

(** The state of a process that has not touched anything yet. *)
Definition fresh : state :=
  {| self := blank; dask_config := ∅; fs := ∅; log := [] |}.

(** The state right after [local_cluster()] in a fresh process. *)
Definition after_local (bad : event -> bool) : state :=
  (construct (sample_env bad) (Call_local_cluster ∅ None ∅) fresh).2.

(** The state right after [slurm_cluster()] (all arguments at their
    defaults) in a fresh process. *)
Definition slurm_defaults : constructor_call :=
  Call_slurm_cluster 4 1 None (Some 1) (Some 4) "3:59" ∅ ∅.
Definition after_slurm : state :=
  (construct (sample_env nothing_fails) slurm_defaults fresh).2.

(** The default path of the configuration file in [sample_env]. *)
Definition sample_path : string := "/home/ada/.config/dask/ClusterWrap.yaml".

(** More ways for the outside world to fail. *)
Definition open_fails : event -> bool :=
  fun e => if e is EvOpenWrite _ then true else false.
Definition new_client_fails : event -> bool :=
  fun e => if e is EvNewClient then true else false.
Definition adapt_fails : event -> bool :=
  fun e => if e is EvAdapt _ then true else false.

(** [sample_env] without [USER] in the environment. *)
Definition sample_env_no_user : env :=
  {| home := "/home/ada"; cwd := "/work"; pid := 4242;
     environ := ∅;
     fails := nothing_fails;
     yaml_dump := fun config => String.concat "," (map_to_list config).*1;
     backend_dashboard := "http://127.0.0.1:8787/status" |}.

(** A pool built elsewhere. *)
Definition foreign_pool : cluster_obj :=
  {| backend_of := Foreign; new_spec_options := ∅;
     dashboard_link := "http://10.0.0.1:8787/status" |}.

End Clusters.

(* ===================================================================== *)
(** ** Properties of the environment selector                             *)
(* ===================================================================== *)

Module SelectorFacts.
Import Selector.

Lemma bsub_check_binding h s :
  binding (bsub_check h s) =
    match which h "bsub" with
    | Some _ => if (system h "bsub -V" =? 32512) then binding s
                else janelia_lsf_cluster
    | None => binding s
    end.
Proof.
  unfold bsub_check, run_system.
  destruct (which h "bsub"); [|done].
  by destruct (system h "bsub -V" =? 32512).
Qed.

Lemma srun_check_binding h s :
  binding (srun_check h s) =
    match which h "srun" with
    | Some _ => if (WEXITSTATUS (system h "srun --version") =? 0)
                then slurm_cluster else binding s
    | None => binding s
    end.
Proof.
  unfold srun_check, run_system.
  destruct (which h "srun"); [|done].
  by destruct (WEXITSTATUS (system h "srun --version") =? 0).
Qed.

Lemma srun_check_executed h s :
  executed (srun_check h s) =
    executed s ++ match which h "srun" with
                  | Some _ => ["srun --version"]
                  | None => []
                  end.
Proof.
  unfold srun_check, run_system.
  destruct (which h "srun"); [|by rewrite app_nil_r].
  by destruct (WEXITSTATUS (system h "srun --version") =? 0).
Qed.

Example WEXITSTATUS_examples :
  WEXITSTATUS 0 = 0 /\ WEXITSTATUS 256 = 1 /\ WEXITSTATUS 32512 = 127.
Proof. by vm_compute. Qed.

(** X1. With neither executable on the path nothing is run and the default
    stays the local-machine variant. *)
Lemma no_scheduler_gives_local h :
  which h "bsub" = None -> which h "srun" = None ->
  module_body h = initial /\ cluster h = local_cluster.
Proof.
  intros Hb Hs. unfold cluster, module_body, srun_check, bsub_check.
  by rewrite Hb, Hs.
Qed.

(** C1 (as stated, refuted). On a host where both [bsub] and [srun] are on
    the path and both version commands return raw status 0, the [bsub]
    check selects the high-throughput variant, yet the [srun] check is
    still run and the final default factory is the batch-queue variant. *)
Lemma C1_counterexample :
  let h := host_of (Some 0) (Some 0) in
  binding (bsub_check h initial) = janelia_lsf_cluster /\
  is_Some (which h "srun") /\
  WEXITSTATUS (system h "srun --version") = 0 /\
  In "srun --version" (executed (module_body h)) /\
  cluster h <> janelia_lsf_cluster.
Proof. vm_compute. repeat split; eauto; discriminate. Qed.

(** C1 (amended). The two checks are independent statements run in
    sequence: the [srun] check is consulted whatever the [bsub] check
    did. Whenever [srun] is on the path its version command is executed
    last, and the default factory is the batch-queue variant exactly when
    the decoded exit status is 0; otherwise (and when [srun] is absent)
    the binding chosen by the [bsub] check is kept. *)
Theorem C1_checks_are_sequential (h : host) :
  (is_Some (which h "srun") ->
     executed (module_body h) =
       executed (bsub_check h initial) ++ ["srun --version"] /\
     (WEXITSTATUS (system h "srun --version") = 0 ->
        cluster h = slurm_cluster) /\
     (WEXITSTATUS (system h "srun --version") <> 0 ->
        cluster h = binding (bsub_check h initial))) /\
  (which h "srun" = None ->
     module_body h = bsub_check h initial).
Proof.
  unfold cluster, module_body. split.
  - intros [p Hp]. rewrite srun_check_executed, srun_check_binding, Hp.
    split; [done|]. split; intros Hs.
    + by rewrite Hs.
    + by apply Z.eqb_neq in Hs as ->.
  - intros Hp. unfold srun_check. by rewrite Hp.
Qed.

Lemma C1_checks_are_sequential_witness :
  let h := host_of (Some 0) (Some 0) in
  is_Some (which h "srun") /\
  WEXITSTATUS (system h "srun --version") = 0 /\
  cluster h = slurm_cluster.
Proof.
  intros h.
  assert (Hw : is_Some (which h "srun")) by (vm_compute; eauto).
  assert (Hs : WEXITSTATUS (system h "srun --version") = 0)
    by (vm_compute; reflexivity).
  split; [exact Hw|]. split; [exact Hs|].
  destruct (C1_checks_are_sequential h) as [Hsrun _].
  destruct (Hsrun Hw) as (_ & Hsel & _).
  exact (Hsel Hs).
Defined.

(** C2 (as stated, refuted). With [bsub] on the path: a raw status equal
    to the sentinel 32512 leaves the default untouched, and a raw status
    different from it (here 0) selects the high-throughput variant. *)
Lemma C2_counterexample :
  binding (bsub_check (host_of (Some 32512) None) initial) = local_cluster /\
  binding (bsub_check (host_of (Some 0) None) initial) = janelia_lsf_cluster.
Proof. by vm_compute. Qed.

(** C2 (amended). If [bsub] is on the path, the [bsub] check selects the
    high-throughput variant exactly when the raw status of [bsub -V]
    differs from 32512; when the status equals 32512 the step leaves the
    binding as it was. *)
Theorem C2_bsub_selected_iff_not_sentinel (h : host) (s : sel) :
  is_Some (which h "bsub") ->
  (system h "bsub -V" <> 32512 ->
     binding (bsub_check h s) = janelia_lsf_cluster) /\
  (system h "bsub -V" = 32512 ->
     binding (bsub_check h s) = binding s) /\
  (binding s <> janelia_lsf_cluster ->
     (binding (bsub_check h s) = janelia_lsf_cluster <->
      system h "bsub -V" <> 32512)).
Proof.
  intros [p Hp]. rewrite bsub_check_binding, Hp.
  destruct (Z.eqb_spec (system h "bsub -V") 32512) as [Heq|Hne].
  - split; [done|]. split; [done|]. intros Hs. split; [done|]. done.
  - split; [done|]. split; [done|]. done.
Qed.

Lemma C2_bsub_selected_iff_not_sentinel_witness :
  is_Some (which (host_of (Some 0) None) "bsub") /\
  binding (bsub_check (host_of (Some 0) None) initial) = janelia_lsf_cluster.
Proof.
  assert (Hw : is_Some (which (host_of (Some 0) None) "bsub")) by (vm_compute; eauto).
  split; [exact Hw|].
  destruct (C2_bsub_selected_iff_not_sentinel
              (host_of (Some 0) None) initial Hw) as [Hsel _].
  apply Hsel. vm_compute. intros Heq. discriminate Heq.
Defined.

(** *** Further properties of the selection *)

Lemma WEXITSTATUS_small status :
  0 <= status < 256 -> WEXITSTATUS status = 0.
Proof.
  intros Hs. unfold WEXITSTATUS.
  rewrite Z.shiftr_div_pow2 by lia.
  rewrite Z.div_small by (change (2 ^ 8) with 256; lia). reflexivity.
Qed.

(** X2. The three outcomes of the import, by priority: the batch-queue variant
    whenever [srun] is on the path and its decoded exit status is 0;
    otherwise the high-throughput variant whenever [bsub] is on the path
    and its raw status is not 32512; otherwise the local variant. *)
Theorem cluster_by_priority (h : host) :
  let srun_ok := is_Some (which h "srun") /\
                 WEXITSTATUS (system h "srun --version") = 0 in
  let bsub_ok := is_Some (which h "bsub") /\ system h "bsub -V" <> 32512 in
  (cluster h = slurm_cluster <-> srun_ok) /\
  (cluster h = janelia_lsf_cluster <-> bsub_ok /\ ~ srun_ok) /\
  (cluster h = local_cluster <-> ~ bsub_ok /\ ~ srun_ok).
Proof.
  intros srun_ok bsub_ok. subst srun_ok bsub_ok.
  unfold cluster, module_body.
  rewrite srun_check_binding, bsub_check_binding. unfold initial. simpl.
  assert (Hnone : ~ is_Some (@None string)) by (by intros [? ?]).
  assert (Hsome : forall x : string, is_Some (Some x)) by eauto.
  destruct (which h "srun") as [ps|], (which h "bsub") as [pb|];
    try destruct (Z.eqb_spec (WEXITSTATUS (system h "srun --version")) 0);
    try destruct (Z.eqb_spec (system h "bsub -V") 32512);
    intuition (eauto; try discriminate; try congruence);
    exfalso; eauto.
Qed.

(** X3. The import runs a version command only for an executable found on the
    path, [bsub -V] before [srun --version], each at most once, and
    nothing else. *)
Theorem executed_commands (h : host) :
  executed (module_body h) =
    (if which h "bsub" is Some _ then ["bsub -V"] else []) ++
    (if which h "srun" is Some _ then ["srun --version"] else []).
Proof.
  unfold module_body. rewrite srun_check_executed. f_equal.
  unfold bsub_check, run_system, initial.
  destruct (which h "bsub"); [|done].
  by destruct (system h "bsub -V" =? 32512).
Qed.

(** X4. The [srun] check decodes the exit status and ignores the low byte of
    the raw status: whenever [srun] is on the path and the raw status of
    its version command is below 256 (a plain 0, but also a termination by
    a signal), the batch-queue variant is selected, whatever [bsub] did. *)
Theorem srun_low_status_selects_slurm (h : host) :
  is_Some (which h "srun") ->
  0 <= system h "srun --version" < 256 ->
  cluster h = slurm_cluster.
Proof.
  intros [p Hp] Hs. unfold cluster, module_body.
  rewrite srun_check_binding, Hp, WEXITSTATUS_small by done. reflexivity.
Qed.

Lemma srun_low_status_selects_slurm_witness :
  let h := host_of (Some 256) (Some 9) in
  is_Some (which h "srun") /\ system h "srun --version" = 9 /\
  binding (bsub_check h initial) = janelia_lsf_cluster /\
  cluster h = slurm_cluster.
Proof.
  intros h.
  assert (Hw : is_Some (which h "srun")) by (vm_compute; eauto).
  split; [exact Hw|]. split; [reflexivity|]. split; [reflexivity|].
  apply (srun_low_status_selects_slurm h Hw). vm_compute.
  split; [intros Hc; discriminate Hc|reflexivity].
Defined.

Lemma no_scheduler_gives_local_witness :
  let h := host_of None None in
  which h "bsub" = None /\ which h "srun" = None /\
  executed (module_body h) = [] /\ cluster h = local_cluster.
Proof.
  intros h.
  assert (Hb : which h "bsub" = None) by reflexivity.
  assert (Hs : which h "srun" = None) by reflexivity.
  split; [exact Hb|]. split; [exact Hs|].
  destruct (no_scheduler_gives_local h Hb Hs) as [Hbody Hc].
  split; [|exact Hc]. by rewrite Hbody.
Defined.

End SelectorFacts.

(* ===================================================================== *)
(** ** Properties of the cluster wrappers                                 *)
(* ===================================================================== *)

Module ClusterFacts.
Import Clusters.

(** *** Running monadic code *)

Lemma bind_run {A B} (m : M A) (k : A -> M B) (s : state) :
  (m ≫= k) s = match m s with
               | (Ok a, s') => k a s'
               | (Raise x, s') => (Raise x, s')
               end.
Proof. reflexivity. Qed.

Lemma bind_Ok_inv {A B} (m : M A) (k : A -> M B) s b s' :
  (m ≫= k) s = (Ok b, s') ->
  exists a s1, m s = (Ok a, s1) /\ k a s1 = (Ok b, s').
Proof.
  rewrite bind_run. destruct (m s) as [[a|x] s1]; [eauto|discriminate].
Qed.

Lemma getattr_Ok_inv {A} name (field : wrapper -> option A) s a s' :
  getattr name field s = (Ok a, s') -> field (self s) = Some a /\ s' = s.
Proof.
  unfold getattr. destruct (field (self s)); intros [= <- <-]; auto.
Qed.

Example str_examples :
  str 60 = "60" /\ str 8 = "8" /\ str 0 = "0" /\ str (-15) = "-15".
Proof. by vm_compute. Qed.

(** Evaluate the monad's plumbing and the primitive operations. *)
Ltac mrun :=
  cbv beta iota delta
    [mbind M_bind mret M_ret getattr get update raise pass emit
     set_self set_fs set_dask_config call os_remove os_path_exists
     write_yaml dask_config_set set_client set_cluster _cluster__init__
     new_Client new_LocalCluster];
  simpl.

(** An event of one kind is not in an explicit list of events of other
    kinds. *)
Ltac not_logged :=
  let H := fresh "Hin" in
  intros ? H;
  repeat (apply elem_of_cons in H as [H|H]; [discriminate H|]);
  by apply elem_of_nil in H.

(** Split a successful run [H] of [m ≫= k] into the run [Hm] of [m] and
    the run of [k], which stays in [H]. *)
Ltac mstep H Hm :=
  let a := fresh "a" in
  let s := fresh "s" in
  apply bind_Ok_inv in H as (a & s & Hm & H); cbv beta zeta in H.

(** The same when [m] is a plain state update or a log entry. *)
Ltac mskip H :=
  let Hm := fresh "Hm" in
  mstep H Hm;
  cbv beta iota delta
    [mbind M_bind mret M_ret update pass emit set_self set_client
     set_cluster _cluster__init__] in Hm;
  injection Hm as <- <-.

(** Case analysis on whether the next external operation raises. *)
Ltac case_fails :=
  match goal with
  | |- context [fails ?E ?e] => destruct (fails E e) eqn:?; simpl
  end.

Section with_env.
Context (E : env).

Lemma call_run e s :
  call E e s =
    (if fails E e then Raise (Failed e) else Ok tt, logged e s).
Proof.
  unfold call. rewrite bind_run. simpl. by destruct (fails E e).
Qed.

Lemma call_Ok_inv e s u s' :
  call E e s = (Ok u, s') -> fails E e = false /\ s' = logged e s.
Proof.
  rewrite call_run. destruct (fails E e); [discriminate|].
  by intros [= <- <-].
Qed.

(** *** Scope exit *)

Lemma attempted_all steps :
  Forall (fun e => fails E e = false) steps -> attempted E steps = steps.
Proof. induction 1 as [|e l He _ IH]; simpl; [done|]. by rewrite He, IH. Qed.

Lemma attempted_until pre e post :
  Forall (fun x => fails E x = false) pre -> fails E e = true ->
  attempted E (pre ++ e :: post) = pre ++ [e].
Proof.
  induction 1 as [|x l Hx _ IH]; simpl; intros He.
  - by rewrite He.
  - by rewrite Hx, IH.
Qed.

Lemma exit_run exc s :
  constructed (self s) ->
  _cluster__exit__ E exc s =
    (match List.find (fails E) (teardown_steps exc s) with
     | Some e => Raise (Failed e)
     | None => Ok tt
     end,
     {| self := self s; dask_config := dask_config s;
        fs := fs_after E (teardown_steps exc s) (fs s);
        log := log s ++ attempted E (teardown_steps exc s) |}).
Proof.
  destruct s as [[c cl p b a n lo hi] config files events].
  unfold constructed; simpl.
  intros ([c' ->] & [cl' ->] & [p' ->] & [b' ->]).
  unfold _cluster__exit__, teardown_steps, cleanup; mrun.
  destruct b'; simpl.
  - destruct (fails E EvClientClose); simpl; [done|].
    by destruct (fails E (EvClusterExit exc)); simpl; rewrite <- ?app_assoc.
  - destruct (bool_decide (is_Some (files !! p'))); simpl.
    + destruct (fails E (EvRemove p')); simpl; [done|].
      destruct (fails E EvClientClose); simpl; [by rewrite <- ?app_assoc|].
      by destruct (fails E (EvClusterExit exc)); simpl;
        rewrite <- ?app_assoc.
    + destruct (fails E EvClientClose); simpl; [done|].
      by destruct (fails E (EvClusterExit exc)); simpl;
        rewrite <- ?app_assoc.
Qed.

Lemma find_fails_none steps :
  Forall (fun e => fails E e = false) steps ->
  List.find (fails E) steps = None.
Proof. induction 1 as [|e l He _ IH]; simpl; [done|]. by rewrite He. Qed.

Lemma find_fails_first pre e post :
  Forall (fun x => fails E x = false) pre -> fails E e = true ->
  List.find (fails E) (pre ++ e :: post) = Some e.
Proof.
  induction 1 as [|x l Hx _ IH]; simpl; intros He.
  - by rewrite He.
  - rewrite Hx. auto.
Qed.

Lemma new_events_app s s' evs :
  log s' = log s ++ evs -> new_events s s' = evs.
Proof. unfold new_events. intros ->. apply drop_app_length. Qed.

(** C3 (amended). On scope exit of a constructed wrapper the teardown
    steps are attempted in the fixed order file cleanup (when due),
    client close, cluster teardown. If none of them raises, all of them
    run, in that order, and [__exit__] returns normally. If one of them
    raises, the exception leaves [__exit__] at once: exactly the steps
    up to and including the failing one have been attempted and no
    later step runs. *)
Theorem C3_teardown_in_order_until_first_failure exc s :
  constructed (self s) ->
  let steps := teardown_steps exc s in
  let out := _cluster__exit__ E exc s in
  (exists pre, steps = pre ++ [EvClientClose; EvClusterExit exc] /\
               (pre = [] \/ exists p, pre = [EvRemove p])) /\
  (Forall (fun e => fails E e = false) steps ->
     out.1 = Ok tt /\ new_events s out.2 = steps) /\
  (forall pre e post,
     steps = pre ++ e :: post ->
     Forall (fun x => fails E x = false) pre -> fails E e = true ->
     out.1 = Raise (Failed e) /\ new_events s out.2 = pre ++ [e]).
Proof.
  intros Hw steps out. subst out. rewrite (exit_run exc s Hw).
  fold steps. simpl. split; [|split].
  - exists (cleanup s). split; [done|]. unfold cleanup.
    repeat case_match; eauto.
  - intros Hall. rewrite (find_fails_none _ Hall). split; [done|].
    apply new_events_app. simpl. by rewrite (attempted_all _ Hall).
  - intros pre e post -> Hpre He.
    rewrite (find_fails_first _ _ _ Hpre He). split; [done|].
    apply new_events_app. simpl. by rewrite (attempted_until _ _ _ Hpre He).
Qed.

(** C4. Whenever [__exit__] returns normally: if [persist_yaml] was
    [False], no file exists at [yaml_path] afterwards; if it was [True],
    the removal step is skipped, the files are exactly as they were, and
    so a configuration file present at [yaml_path] is still there. *)
Theorem C4_file_removed_unless_persisted exc s s' :
  _cluster__exit__ E exc s = (Ok tt, s') ->
  (persist_yaml (self s) = Some false ->
     forall p, yaml_path (self s) = Some p -> fs s' !! p = None) /\
  (persist_yaml (self s) = Some true ->
     fs s' = fs s /\
     (forall q, EvRemove q ∉ new_events s s') /\
     forall p, yaml_path (self s) = Some p ->
               is_Some (fs s !! p) -> is_Some (fs s' !! p)).
Proof.
  destruct s as [[c cl p b a n lo hi] config files events].
  unfold _cluster__exit__; mrun.
  destruct b as [[|]|]; simpl; [| |discriminate].
  - destruct c; simpl; [|discriminate]. case_fails; [discriminate|].
    destruct cl; simpl; [|discriminate]. case_fails; [discriminate|].
    intros [= <-]; simpl. split; [discriminate|]. intros _.
    split; [done|]. split; [|done].
    erewrite new_events_app; [|simpl; by rewrite <- app_assoc].
    not_logged.
  - destruct p as [p|]; simpl; [|discriminate].
    destruct (bool_decide_reflect (is_Some (files !! p))) as [Hin|Hout];
      simpl.
    + case_fails; [discriminate|].
      destruct c; simpl; [|discriminate]. case_fails; [discriminate|].
      destruct cl; simpl; [|discriminate]. case_fails; [discriminate|].
      intros [= <-]; simpl. split; [|discriminate].
      intros _ ? [= <-]. apply lookup_delete_eq.
    + destruct c; simpl; [|discriminate]. case_fails; [discriminate|].
      destruct cl; simpl; [|discriminate]. case_fails; [discriminate|].
      intros [= <-]; simpl. split; [|discriminate].
      intros _ ? [= <-]. by apply eq_None_not_Some.
Qed.

(** C10. Scope exit with [persist_yaml=False] while no file exists at
    [yaml_path]: the existence check guards the removal, so no removal
    is attempted, the files are untouched, the outcome is never an error
    of the removal step, and, with a client attached, the first thing
    done is the client close. *)
Theorem C10_exit_tolerates_missing_file exc s p :
  persist_yaml (self s) = Some false ->
  yaml_path (self s) = Some p ->
  fs s !! p = None ->
  let out := _cluster__exit__ E exc s in
  fs out.2 = fs s /\
  (forall q, EvRemove q ∉ new_events s out.2) /\
  (forall q, out.1 <> Raise (Failed (EvRemove q))) /\
  (is_Some (client (self s)) ->
     head (new_events s out.2) = Some EvClientClose).
Proof.
  destruct s as [[c cl p' b a n lo hi] config files events]; simpl.
  intros -> -> Hnone. unfold _cluster__exit__; mrun.
  rewrite bool_decide_false by (rewrite Hnone; by intros [? ?]).
  unfold new_events; simpl.
  destruct c; simpl.
  - case_fails.
    { rewrite drop_app_length. repeat split; try done. not_logged. }
    destruct cl; simpl.
    + case_fails; rewrite <- app_assoc, drop_app_length;
        (repeat split; try done); not_logged.
    + rewrite drop_app_length. repeat split; try done. not_logged.
  - rewrite drop_all.
    repeat split; first [done | not_logged | by intros [? ?]].
Qed.

(** *** [modify_dask_config] *)

Lemma modify_dask_config_run options yaml_name persist s :
  modify_dask_config E options yaml_name persist s =
    let path := config_file E yaml_name in
    let config := options ∪ dask_config s in
    if fails E (EvOpenWrite path)
    then (Raise (Failed (EvOpenWrite path)),
          {| self := self s; dask_config := config; fs := fs s;
             log := log s ++ [EvOpenWrite path] |})
    else (Ok tt,
          {| self := with_persist_yaml (Some (default false persist))
                       (with_yaml_path (Some path) (self s));
             dask_config := config;
             fs := <[path := yaml_dump E config]> (fs s);
             log := log s ++ [EvOpenWrite path] |}).
Proof.
  unfold modify_dask_config, config_file; mrun. by case_fails.
Qed.

Lemma modify_dask_config_config options yaml_name persist s :
  dask_config (modify_dask_config E options yaml_name persist s).2 =
    options ∪ dask_config s.
Proof. rewrite modify_dask_config_run. simpl. by case_fails. Qed.

(** C5. Two calls of [modify_dask_config], the second with options
    [o2]: afterwards every key of [o2] has the second call's value;
    a key the second call does not mention keeps the value it had
    after the first call, which is the first call's value if the first
    call set it and the original value otherwise. This holds whether or
    not writing the file succeeds. *)
Theorem C5_last_write_wins o1 n1 p1 o2 n2 p2 s :
  let s1 := (modify_dask_config E o1 n1 p1 s).2 in
  let s2 := (modify_dask_config E o2 n2 p2 s1).2 in
  (forall k v, o2 !! k = Some v -> dask_config s2 !! k = Some v) /\
  (forall k, o2 !! k = None ->
             dask_config s2 !! k = dask_config s1 !! k) /\
  (forall k v, o2 !! k = None -> o1 !! k = Some v ->
               dask_config s2 !! k = Some v) /\
  (forall k, o2 !! k = None -> o1 !! k = None ->
             dask_config s2 !! k = dask_config s !! k).
Proof.
  intros s1 s2. subst s2 s1. rewrite !modify_dask_config_config.
  repeat split.
  - intros k v Hk. by apply lookup_union_Some_l.
  - intros k Hk. by rewrite lookup_union_r.
  - intros k v Hk2 Hk1. rewrite lookup_union_r by done.
    by apply lookup_union_Some_l.
  - intros k Hk2 Hk1. by rewrite !lookup_union_r.
Qed.

(** C6. Calling [modify_dask_config] a second time with the same
    arguments changes nothing the first call established: the
    process-wide configuration, the files (hence the content at
    [yaml_path]), the wrapper (hence [yaml_path] and [persist_yaml]) and
    the outcome are the same as after one call. *)
Theorem C6_modify_dask_config_idempotent options yaml_name persist s :
  let once := modify_dask_config E options yaml_name persist s in
  let twice := modify_dask_config E options yaml_name persist once.2 in
  dask_config twice.2 = dask_config once.2 /\
  fs twice.2 = fs once.2 /\
  self twice.2 = self once.2 /\
  twice.1 = once.1.
Proof.
  intros once twice. subst twice once.
  rewrite !modify_dask_config_run. simpl.
  case_fails.
  - by rewrite (assoc_L (∪)), (idemp_L (∪)).
  - rewrite (assoc_L (∪)), (idemp_L (∪)), insert_insert_eq.
    by destruct (self s).
Qed.

(** *** The batch-queue wrapper *)

Lemma adapt_cluster_Ok_inv mn mx s u s' :
  adapt_cluster E mn mx s = (Ok u, s') ->
  exists c n,
    cluster (self s) = Some c /\ ncpus (self s) = Some n /\
    let lo := if mn is Some _ then mn else min_workers (self s) in
    let hi := if mx is Some _ then mx else max_workers (self s) in
    fails E (EvAdapt (policy lo hi)) = false /\
    exists line,
      s' = {| self := with_adapt (Some (policy lo hi))
                        (with_max_workers hi
                           (with_min_workers lo (self s)));
              dask_config := dask_config s; fs := fs s;
              log := log s ++ [EvAdapt (policy lo hi); EvPrint line] |}.
Proof.
  destruct s as [[c cl p b a n lo hi] config files events], u.
  unfold adapt_cluster, policy; mrun.
  destruct mn as [mn|], mx as [mx|]; mrun;
    (destruct cl as [cl|]; simpl; [|discriminate]);
    (case_fails; [discriminate|]);
    (destruct n as [n|]; simpl; [|discriminate]);
    intros [= <-]; exists cl, n; (repeat split; try done);
    eexists; by rewrite <- app_assoc.
Qed.

Lemma for_each_set_option_run kwargs : forall s c,
  cluster (self s) = Some c ->
  for_each set_option kwargs s =
    (Ok tt,
     {| self := with_cluster
                  (Some (with_options
                           (apply_overrides kwargs (new_spec_options c)) c))
                  (self s);
        dask_config := dask_config s; fs := fs s;
        log := log s ++ override_events kwargs |}).
Proof.
  induction kwargs as [|[k v] l IH]; intros s c Hc.
  - destruct s as [[? ? ? ? ? ? ? ?] ? ? ?]; simpl in *; subst.
    destruct c; simpl. by rewrite app_nil_r.
  - cbn [for_each]. rewrite bind_run.
    destruct s as [[cl0 c0 p b a n lo hi] config files events];
      simpl in Hc; subst c0.
    unfold set_option at 1; mrun.
    erewrite IH; [|reflexivity]. simpl. by rewrite <- app_assoc.
Qed.

Lemma apply_overrides_lookup_other kwargs : forall (o : dict) k,
  k ∉ kwargs.*1 -> apply_overrides kwargs o !! k = o !! k.
Proof.
  induction kwargs as [|[k0 v0] l IH]; intros o k Hk; [done|].
  rewrite fmap_cons, not_elem_of_cons in Hk. destruct Hk as [Hne Hk].
  unfold apply_overrides in *. simpl in *.
  rewrite IH by done. by rewrite lookup_insert_ne.
Qed.

Lemma apply_overrides_lookup_given kwargs : forall (o : dict) k v,
  NoDup kwargs.*1 -> (k, v) ∈ kwargs ->
  apply_overrides kwargs o !! k = Some v.
Proof.
  induction kwargs as [|[k0 v0] l IH]; intros o k v Hnd Hin.
  - by apply elem_of_nil in Hin.
  - rewrite fmap_cons in Hnd. apply NoDup_cons in Hnd as [Hfresh Hnd].
    apply elem_of_cons in Hin as [[= -> ->]|Hin].
    + change (apply_overrides l (<[k0 := v0]> o) !! k0 = Some v0).
      rewrite apply_overrides_lookup_other by done.
      apply lookup_insert_eq.
    + change (apply_overrides l (<[k0 := v0]> o) !! k = Some v). eauto.
Qed.

Lemma new_SLURMCluster_Ok_inv explicit kwargs s c s' :
  new_SLURMCluster E explicit kwargs s = (Ok c, s') ->
  Forall (fun kv => kwargs !! kv.1 = None) explicit /\
  c = {| backend_of := SLURM;
         new_spec_options := kwargs ∪ list_to_map explicit;
         dashboard_link := backend_dashboard E |} /\
  s' = logged (EvNewSLURMCluster (kwargs ∪ list_to_map explicit)) s.
Proof.
  unfold new_SLURMCluster. case_bool_decide as Hdup; [discriminate|].
  rewrite bind_run, call_run. case_fails; [discriminate|].
  intros [= <- <-]. split; [|done].
  apply not_Exists_Forall in Hdup; [|intros ?; apply _].
  eapply Forall_impl; [exact Hdup|]. intros kv Hkv.
  by apply eq_None_not_Some.
Qed.

Lemma new_Client_Ok_inv c s cli s' :
  new_Client E c s = (Ok cli, s') -> s' = logged EvNewClient s.
Proof.
  unfold new_Client. rewrite bind_run, call_run.
  case_fails; [discriminate|]. cbv beta delta [mret M_ret]. by intros [= _ <-].
Qed.

(** What a successful [slurm_cluster.__init__] leaves behind. *)
Lemma slurm_cluster__init___Ok_inv ncpus processes threads lo hi walltime
    config kwargs s s' :
  slurm_cluster__init__ E ncpus processes threads lo hi walltime
    config kwargs s = (Ok tt, s') ->
  exists c,
    cluster (self s') = Some c /\ is_Some (client (self s')) /\
    backend_of c = SLURM /\
    new_spec_options c !! "memory" =
      Some (VStr (str (15 * ncpus) +:+ "GB")) /\
    new_spec_options c !! "job_script_prologue" =
      Some (VStrs (export_statement (2 * ncpus) <$> thread_count_variables)) /\
    EvNewSLURMCluster (new_spec_options c) ∈ new_events s s' /\
    yaml_path (self s') = Some (config_file E None) /\
    persist_yaml (self s') = Some false /\
    is_Some (fs s' !! config_file E None).
Proof.
  intros H. unfold slurm_cluster__init__ in H.
  mskip H. mstep H Huser.
  destruct (environ E !! "USER") as [user|]; [|discriminate].
  injection Huser as <- <-.
  mstep H Hcfg. rewrite modify_dask_config_run in Hcfg.
  cbv zeta in Hcfg. revert Hcfg. case_fails; [discriminate|].
  intros [= <- <-].
  do 4 mskip H.
  mstep H Hdir. mskip H. mstep H Hnew. mstep H Hcli.
  do 4 mskip H.
  apply new_SLURMCluster_Ok_inv in Hnew as (Hfree & -> & ->).
  apply new_Client_Ok_inv in Hcli as ->.
  apply adapt_cluster_Ok_inv in H as (c' & n & Hc' & _ & _ & line & ->).
  injection Hc' as <-.
  rewrite !Forall_cons in Hfree.
  destruct Hfree as (_ & _ & Hmem & _ & Hpro & _). simpl in Hmem, Hpro.
  assert (Hs0 : exists evs,
             self s0 = with_max_workers hi
               (with_min_workers lo
                  (with_ncpus (Some ncpus)
                     (with_adapt None
                        (with_persist_yaml (Some false)
                           (with_yaml_path (Some (config_file E None))
                              (with_cluster None
                                 (with_client None (self s)))))))) /\
             is_Some (fs s0 !! config_file E None) /\
             log s0 = log s ++ EvOpenWrite (config_file E None) :: evs).
  { revert Hdir. case_match.
    - intros [= _ <-]. exists []. cbn [self fs log].
      by rewrite lookup_insert_eq.
    - rewrite bind_run, call_run. case_fails; [discriminate|].
      intros [= _ <-]. eexists [_]. cbn [self fs log logged].
      rewrite lookup_insert_eq, <- app_assoc. by eauto. }
  destruct Hs0 as (evs & Hself & Hfile & Hlog).
  eexists. cbn [self cluster client yaml_path persist_yaml fs log logged
                with_adapt with_max_workers with_min_workers with_client
                with_cluster new_spec_options backend_of].
  rewrite Hself. cbn [yaml_path persist_yaml with_adapt with_max_workers
                      with_min_workers with_ncpus with_persist_yaml].
  split; [reflexivity|]. cbn [new_spec_options backend_of].
  split; [by eauto|]. split; [reflexivity|].
  split; [rewrite lookup_union_r by done; reflexivity|].
  split; [rewrite lookup_union_r by done; reflexivity|].
  split; [|done].
  erewrite new_events_app;
    [|rewrite Hlog, <- !app_assoc; cbn [app]; reflexivity].
  apply list_elem_of_further, elem_of_app. right.
  apply list_elem_of_further, list_elem_of_here.
Qed.

(** *** The local and remote wrappers *)

Lemma new_LocalCluster_Ok_inv kwargs s c s' :
  new_LocalCluster E kwargs s = (Ok c, s') ->
  s' = logged (EvNewLocalCluster kwargs) s.
Proof.
  unfold new_LocalCluster. rewrite bind_run, call_run.
  case_fails; [discriminate|]. cbv beta delta [mret M_ret].
  by intros [= _ <-].
Qed.

Lemma local_cluster__init___Ok_inv config memory_limit kwargs s s' :
  local_cluster__init__ E config memory_limit kwargs s = (Ok tt, s') ->
  is_Some (cluster (self s')) /\ is_Some (client (self s')) /\
  yaml_path (self s') = Some (config_file E None) /\
  persist_yaml (self s') = Some false /\
  is_Some (fs s' !! config_file E None).
Proof.
  intros H. unfold local_cluster__init__ in H.
  mskip H. mstep H Hcfg. rewrite modify_dask_config_run in Hcfg.
  cbv zeta in Hcfg. revert Hcfg. case_fails; [discriminate|].
  intros [= <- <-].
  mstep H Hnew. mstep H Hcli. mskip H.
  apply new_LocalCluster_Ok_inv in Hnew as ->.
  apply new_Client_Ok_inv in Hcli as ->.
  cbv beta iota delta [set_client set_self update] in H.
  injection H as <-.
  cbn [self cluster client yaml_path persist_yaml fs logged
       with_client with_cluster with_persist_yaml with_yaml_path].
  rewrite lookup_insert_eq. by eauto 10.
Qed.

Lemma remote_cluster__init___Ok_inv cl config s s' :
  remote_cluster__init__ E cl config s = (Ok tt, s') ->
  cluster (self s') = Some cl /\ is_Some (client (self s')) /\
  yaml_path (self s') = Some (config_file E None) /\
  persist_yaml (self s') = Some false /\
  is_Some (fs s' !! config_file E None).
Proof.
  intros H. unfold remote_cluster__init__ in H.
  mskip H. mstep H Hcfg. rewrite modify_dask_config_run in Hcfg.
  cbv zeta in Hcfg. revert Hcfg. case_fails; [discriminate|].
  intros [= <- <-].
  mstep H Hcli. mskip H.
  apply new_Client_Ok_inv in Hcli as ->.
  cbv beta iota delta [set_client set_self update] in H.
  injection H as <-.
  cbn [self cluster client yaml_path persist_yaml fs logged
       with_client with_cluster with_persist_yaml with_yaml_path].
  rewrite lookup_insert_eq. by eauto 10.
Qed.

(** Every public constructor leaves a wrapper on which [__exit__] can
    run, with the default file name, persistence off, and the file
    written. *)
Lemma construct_Ok_inv call s s' :
  construct E call s = (Ok tt, s') ->
  constructed (self s') /\
  yaml_path (self s') = Some (config_file E None) /\
  persist_yaml (self s') = Some false /\
  is_Some (fs s' !! config_file E None).
Proof.
  intros H. unfold construct in H.
  case_bool_decide; [discriminate|]. mskip H. unfold constructed.
  destruct call.
  - apply slurm_cluster__init___Ok_inv in H
      as (c & Hc & Hcli & _ & _ & _ & _ & Hp & Hb & Hf).
    rewrite Hc, Hp, Hb. by eauto 10.
  - apply local_cluster__init___Ok_inv in H as (Hc & Hcli & Hp & Hb & Hf).
    rewrite Hp, Hb. by eauto 10.
  - apply remote_cluster__init___Ok_inv in H as (Hc & Hcli & Hp & Hb & Hf).
    rewrite Hc, Hp, Hb. by eauto 10.
Qed.

(** *** The claims about construction *)

(** C7. Every batch-queue wrapper that [slurm_cluster(ncpus=n, ...)]
    constructs holds a SLURM pool whose memory request is
    [str(15 * n) + 'GB'] and whose worker prologue is the list of the
    five statements [export VAR=2n], one per thread-count variable of
    the numeric libraries; these are the keywords the backend
    constructor was called with. *)
Theorem C7_slurm_memory_and_thread_counts ncpus processes threads lo hi
    walltime config kwargs s s' :
  slurm_cluster__init__ E ncpus processes threads lo hi walltime
    config kwargs s = (Ok tt, s') ->
  exists c,
    cluster (self s') = Some c /\ backend_of c = SLURM /\
    new_spec_options c !! "memory" =
      Some (VStr (str (15 * ncpus) +:+ "GB")) /\
    new_spec_options c !! "job_script_prologue" =
      Some (VStrs (export_statement (2 * ncpus) <$> thread_count_variables)) /\
    length thread_count_variables = 5%nat /\
    EvNewSLURMCluster (new_spec_options c) ∈ new_events s s'.
Proof.
  intros H. apply slurm_cluster__init___Ok_inv in H
    as (c & Hc & _ & Hb & Hmem & Hpro & Hev & _).
  exists c. by repeat split.
Qed.

(** C9. After any of the three public constructors has returned,
    [persist_yaml] is [False], [yaml_path] is
    [<home>/.config/dask/ClusterWrap.yaml] and the file is there. So a
    scope exit right away starts by removing that file, and the file is
    gone afterwards unless the removal itself raises; whereas after a
    further successful [modify_dask_config(..., persist_yaml=True)] the
    scope exit removes nothing and the file it wrote is still there. *)
Theorem C9_constructors_do_not_persist call s s1 :
  construct E call s = (Ok tt, s1) ->
  let path := home E +:+ "/.config/dask/ClusterWrap.yaml" in
  persist_yaml (self s1) = Some false /\
  yaml_path (self s1) = Some path /\
  is_Some (fs s1 !! path) /\
  (forall exc,
     let out := _cluster__exit__ E exc s1 in
     head (new_events s1 out.2) = Some (EvRemove path) /\
     (fails E (EvRemove path) = false -> fs out.2 !! path = None) /\
     (out.1 = Ok tt -> fs out.2 !! path = None)) /\
  (forall options yaml_name s2 exc,
     modify_dask_config E options yaml_name (Some true) s1 = (Ok tt, s2) ->
     let out := _cluster__exit__ E exc s2 in
     fs out.2 = fs s2 /\
     is_Some (fs out.2 !! config_file E yaml_name) /\
     forall q, EvRemove q ∉ new_events s2 out.2).
Proof.
  intros H path.
  apply construct_Ok_inv in H as (Hw & Hp & Hb & Hf).
  change (config_file E None) with path in *.
  split; [done|]. split; [done|]. split; [done|]. split.
  - intros exc out. subst out. rewrite (exit_run exc s1 Hw).
    unfold teardown_steps, cleanup. rewrite Hb, Hp.
    rewrite bool_decide_true by done.
    cbn [fst snd app fs_after attempted fs].
    split; [by erewrite new_events_app by reflexivity|].
    split.
    + intros ->. apply lookup_delete_eq.
    + cbn [List.find]. case_fails; [discriminate|].
      intros _. apply lookup_delete_eq.
  - intros options yaml_name s2 exc Hm out. subst out.
    rewrite modify_dask_config_run in Hm. cbv zeta in Hm.
    revert Hm. case_fails; [discriminate|]. intros [= <-].
    destruct Hw as (Hcli & Hcl & _ & _).
    rewrite exit_run.
    2:{ unfold constructed. destruct (self s1); simpl in *. eauto. }
    unfold teardown_steps, cleanup.
    destruct (self s1); cbn [fst snd self fs log app fs_after
      persist_yaml yaml_path with_persist_yaml with_yaml_path default].
    rewrite lookup_insert_eq. split; [done|]. split; [by eauto|].
    erewrite new_events_app by reflexivity.
    intros q Hq. apply elem_of_cons in Hq as [Hq|Hq]; [discriminate|].
    revert Hq. case_fails; [by intros ?%elem_of_nil|].
    intros Hq. apply elem_of_cons in Hq as [Hq|Hq]; [discriminate|].
    revert Hq. case_fails; by intros ?%elem_of_nil.
Qed.

(** C8 (amended). A call [change_worker_attributes(mn, mx, **kwargs)]
    that returns normally has done, in this order: scale the pool to zero,
    write each keyword override into the stored option template, install
    the adaptive policy (interval 10s, wait count 6). Afterwards each
    stored bound is the given one when a number was given and is what it
    was before when [None] was given; the policy carries the bounds as
    stored afterwards; the template holds every override, and its other
    entries are unchanged. *)
Theorem C8_change_worker_attributes (mn mx : option Z) kwargs s s' :
  NoDup kwargs.*1 ->
  change_worker_attributes E mn mx kwargs s = (Ok tt, s') ->
  let lo := if mn is Some _ then mn else min_workers (self s) in
  let hi := if mx is Some _ then mx else max_workers (self s) in
  exists c c' line,
    cluster (self s) = Some c /\ cluster (self s') = Some c' /\
    new_events s s' =
      [EvScale 0] ++ override_events kwargs ++
      [EvAdapt (policy lo hi); EvPrint line] /\
    min_workers (self s') = lo /\
    max_workers (self s') = hi /\
    adapt (self s') = Some (policy lo hi) /\
    (forall k v, (k, v) ∈ kwargs -> new_spec_options c' !! k = Some v) /\
    (forall k, k ∉ kwargs.*1 ->
               new_spec_options c' !! k = new_spec_options c !! k).
Proof.
  intros Hnd H lo hi. subst lo hi. unfold change_worker_attributes in H.
  apply bind_Ok_inv in H as (c & s1 & [Hc ->]%getattr_Ok_inv & H).
  apply bind_Ok_inv in H as (? & s2 & [Hscale ->]%call_Ok_inv & H).
  apply bind_Ok_inv in H as (? & s3 & Hset & H).
  rewrite (for_each_set_option_run _ _ c) in Hset by done.
  injection Hset as <- <-.
  apply adapt_cluster_Ok_inv in H as (c' & n & Hc' & _ & _ & line & ->).
  simpl in Hc'. injection Hc' as <-.
  exists c, (with_options (apply_overrides kwargs (new_spec_options c)) c),
    line.
  destruct s as [[? ? ? ? ? ? ? ?] ? ? ?]; simpl in *.
  repeat split; try done.
  - apply new_events_app. simpl. by rewrite <- !app_assoc.
  - intros k v Hin. by apply apply_overrides_lookup_given.
  - intros k Hk. by apply apply_overrides_lookup_other.
Qed.

End with_env.

(** *** The claims on concrete inputs *)

(** An event is not in an explicit list of events different from it. *)
Ltac absent :=
  let H := fresh "Hin" in
  intros H;
  repeat (apply elem_of_cons in H as [H|H]; [discriminate H|]);
  by apply elem_of_nil in H.

(** C3 (as stated, refuted). A wrapper built by [local_cluster()] whose
    client raises on [close()]: scope exit removes the file, attempts the
    client close, and the exception leaves [__exit__]; the cluster
    teardown, the later step, never runs. *)
Lemma C3_counterexample :
  let E := sample_env client_close_fails in
  let s := after_local client_close_fails in
  let out := _cluster__exit__ E None s in
  constructed (self s) /\
  out.1 = Raise (Failed EvClientClose) /\
  new_events s out.2 = [EvRemove sample_path; EvClientClose] /\
  EvClusterExit None ∉ new_events s out.2.
Proof.
  intros E s out.
  assert (Hev : new_events s out.2 = [EvRemove sample_path; EvClientClose])
    by (vm_compute; reflexivity).
  split; [vm_compute; eauto 10|]. split; [vm_compute; reflexivity|].
  split; [exact Hev|]. rewrite Hev. absent.
Qed.

Lemma C3_teardown_in_order_until_first_failure_witness :
  (let E := sample_env nothing_fails in
   let s := after_local nothing_fails in
   let out := _cluster__exit__ E None s in
   constructed (self s) /\
   out.1 = Ok tt /\
   new_events s out.2 =
     [EvRemove sample_path; EvClientClose; EvClusterExit None]) /\
  (let E := sample_env remove_fails in
   let s := after_local remove_fails in
   let out := _cluster__exit__ E None s in
   constructed (self s) /\
   out.1 = Raise (Failed (EvRemove sample_path)) /\
   new_events s out.2 = [EvRemove sample_path]).
Proof.
  split.
  - intros E s out.
    assert (Hw : constructed (self s)) by (vm_compute; eauto 10).
    split; [exact Hw|].
    destruct (C3_teardown_in_order_until_first_failure E None s Hw)
      as (_ & Hall & _).
    destruct Hall as [Hok Hev].
    { apply Forall_forall. intros e _. reflexivity. }
    split; [exact Hok|]. etransitivity; [exact Hev|].
    vm_compute. reflexivity.
  - intros E s out.
    assert (Hw : constructed (self s)) by (vm_compute; eauto 10).
    split; [exact Hw|].
    destruct (C3_teardown_in_order_until_first_failure E None s Hw)
      as (_ & _ & Hfail).
    apply (Hfail [] (EvRemove sample_path)
             [EvClientClose; EvClusterExit None]).
    + vm_compute. reflexivity.
    + constructor.
    + reflexivity.
Defined.

Lemma C4_file_removed_unless_persisted_witness :
  let E := sample_env nothing_fails in
  (let s := after_local nothing_fails in
   let out := _cluster__exit__ E None s in
   persist_yaml (self s) = Some false /\ yaml_path (self s) = Some sample_path /\
   is_Some (fs s !! sample_path) /\
   out.1 = Ok tt /\ fs out.2 !! sample_path = None) /\
  (let s := (modify_dask_config E ∅ None (Some true)
               (after_local nothing_fails)).2 in
   let out := _cluster__exit__ E None s in
   persist_yaml (self s) = Some true /\ yaml_path (self s) = Some sample_path /\
   is_Some (fs s !! sample_path) /\
   out.1 = Ok tt /\ is_Some (fs out.2 !! sample_path)).
Proof.
  intros E. split.
  - intros s out.
    assert (Hrun : _cluster__exit__ E None s = (Ok tt, out.2))
      by (vm_compute; reflexivity).
    assert (Hb : persist_yaml (self s) = Some false)
      by (vm_compute; reflexivity).
    assert (Hp : yaml_path (self s) = Some sample_path)
      by (vm_compute; reflexivity).
    split; [exact Hb|]. split; [exact Hp|].
    split; [vm_compute; eauto|]. split; [vm_compute; reflexivity|].
    destruct (C4_file_removed_unless_persisted E None s out.2 Hrun)
      as [Hgone _].
    exact (Hgone Hb sample_path Hp).
  - intros s out.
    assert (Hrun : _cluster__exit__ E None s = (Ok tt, out.2))
      by (vm_compute; reflexivity).
    assert (Hb : persist_yaml (self s) = Some true)
      by (vm_compute; reflexivity).
    assert (Hp : yaml_path (self s) = Some sample_path)
      by (vm_compute; reflexivity).
    assert (Hf : is_Some (fs s !! sample_path)) by (vm_compute; eauto).
    split; [exact Hb|]. split; [exact Hp|]. split; [exact Hf|].
    split; [vm_compute; reflexivity|].
    destruct (C4_file_removed_unless_persisted E None s out.2 Hrun)
      as [_ Hkept].
    destruct (Hkept Hb) as (_ & _ & Hstill).
    exact (Hstill sample_path Hp Hf).
Defined.

Lemma C5_last_write_wins_witness :
  let E := sample_env nothing_fails in
  let o1 : dict := {[ "a" := VInt 1; "b" := VInt 2 ]} in
  let o2 : dict := {[ "b" := VInt 3 ]} in
  let s1 := (modify_dask_config E o1 None None
               (after_local nothing_fails)).2 in
  let s2 := (modify_dask_config E o2 None None s1).2 in
  dask_config s2 !! "b" = Some (VInt 3) /\
  dask_config s2 !! "a" = Some (VInt 1).
Proof.
  intros E o1 o2 s1 s2.
  destruct (C5_last_write_wins E o1 None None o2 None None
              (after_local nothing_fails)) as (Hnew & _ & Hold & _).
  split.
  - apply Hnew. vm_compute. reflexivity.
  - apply Hold; vm_compute; reflexivity.
Defined.

Lemma C7_slurm_memory_and_thread_counts_witness :
  let E := sample_env nothing_fails in
  let out := slurm_cluster__init__ E 4 1 None (Some 1) (Some 4) "3:59"
               ∅ ∅ fresh in
  out.1 = Ok tt /\
  exists c,
    cluster (self out.2) = Some c /\
    new_spec_options c !! "memory" = Some (VStr "60GB") /\
    new_spec_options c !! "job_script_prologue" =
      Some (VStrs ["export MKL_NUM_THREADS=8"; "export NUM_MKL_THREADS=8";
                   "export OPENBLAS_NUM_THREADS=8";
                   "export OPENMP_NUM_THREADS=8";
                   "export OMP_NUM_THREADS=8"]).
Proof.
  intros E out.
  assert (Hrun : slurm_cluster__init__ E 4 1 None (Some 1) (Some 4) "3:59"
                   ∅ ∅ fresh = (Ok tt, out.2))
    by (vm_compute; reflexivity).
  split; [vm_compute; reflexivity|].
  destruct (C7_slurm_memory_and_thread_counts E 4 1 None (Some 1) (Some 4)
              "3:59" ∅ ∅ fresh out.2 Hrun)
    as (c & Hc & _ & Hmem & Hpro & _).
  exists c. split; [exact Hc|]. split; [exact Hmem|exact Hpro].
Defined.

(** C8 (as stated, refuted). On a wrapper built by [slurm_cluster()]
    (stored minimum 1), [change_worker_attributes(None, 5, memory="30GB")]
    returns normally and the stored [min_workers] is still 1: it does not
    equal the given value [None]. *)
Lemma C8_counterexample :
  let E := sample_env nothing_fails in
  let given_min : option Z := None in
  let out := change_worker_attributes E given_min (Some 5)
               [("memory", VStr "30GB")] after_slurm in
  out.1 = Ok tt /\
  min_workers (self out.2) = Some 1 /\
  min_workers (self out.2) <> given_min.
Proof.
  intros E given_min out.
  assert (Hmin : min_workers (self out.2) = Some 1)
    by (vm_compute; reflexivity).
  split; [vm_compute; reflexivity|]. split; [exact Hmin|].
  rewrite Hmin. intros Hc. discriminate Hc.
Qed.

Lemma C8_change_worker_attributes_witness :
  let E := sample_env nothing_fails in
  let kwargs := [("memory", VStr "30GB")] in
  (let out := change_worker_attributes E (Some 2) (Some 5) kwargs
                after_slurm in
   out.1 = Ok tt /\
   min_workers (self out.2) = Some 2 /\
   max_workers (self out.2) = Some 5 /\
   adapt (self out.2) = Some (policy (Some 2) (Some 5)) /\
   exists c' line,
     cluster (self out.2) = Some c' /\
     new_spec_options c' !! "memory" = Some (VStr "30GB") /\
     new_events after_slurm out.2 =
       [EvScale 0; EvSetOption "memory" (VStr "30GB");
        EvAdapt (policy (Some 2) (Some 5)); EvPrint line]) /\
  (let out := change_worker_attributes E None (Some 5) kwargs
                after_slurm in
   out.1 = Ok tt /\
   min_workers (self out.2) = Some 1 /\
   max_workers (self out.2) = Some 5 /\
   adapt (self out.2) = Some (policy (Some 1) (Some 5))).
Proof.
  intros E kwargs.
  assert (Hnd : NoDup kwargs.*1).
  { apply NoDup_cons. split; [apply not_elem_of_nil|apply NoDup_nil_2]. }
  split.
  - intros out.
    assert (Hrun : change_worker_attributes E (Some 2) (Some 5) kwargs
                     after_slurm = (Ok tt, out.2))
      by (vm_compute; reflexivity).
    destruct (C8_change_worker_attributes E (Some 2) (Some 5) kwargs
                after_slurm out.2 Hnd Hrun)
      as (c & c' & line & _ & Hc' & Hev & Hlo & Hhi & Had & Hgiven & _).
    split; [vm_compute; reflexivity|].
    split; [exact Hlo|]. split; [exact Hhi|]. split; [exact Had|].
    exists c', line. split; [exact Hc'|]. split; [|exact Hev].
    apply Hgiven. apply list_elem_of_here.
  - intros out.
    assert (Hrun : change_worker_attributes E None (Some 5) kwargs
                     after_slurm = (Ok tt, out.2))
      by (vm_compute; reflexivity).
    destruct (C8_change_worker_attributes E None (Some 5) kwargs
                after_slurm out.2 Hnd Hrun)
      as (c & c' & line & _ & _ & _ & Hlo & Hhi & Had & _).
    split; [vm_compute; reflexivity|].
    split; [etransitivity; [exact Hlo|vm_compute; reflexivity]|].
    split; [exact Hhi|].
    etransitivity; [exact Had|]. vm_compute. reflexivity.
Defined.

Lemma C9_constructors_do_not_persist_witness :
  let E := sample_env nothing_fails in
  (construct E slurm_defaults fresh).1 = Ok tt /\
  persist_yaml (self after_slurm) = Some false /\
  yaml_path (self after_slurm) = Some sample_path /\
  is_Some (fs after_slurm !! sample_path) /\
  fs (_cluster__exit__ E None after_slurm).2 !! sample_path = None.
Proof.
  intros E.
  assert (Hrun : construct E slurm_defaults fresh = (Ok tt, after_slurm))
    by (vm_compute; reflexivity).
  destruct (C9_constructors_do_not_persist E slurm_defaults fresh
              after_slurm Hrun) as (Hb & Hp & Hf & Hexit & _).
  split; [vm_compute; reflexivity|].
  split; [exact Hb|]. split; [exact Hp|]. split; [exact Hf|].
  destruct (Hexit None) as (_ & Hgone & _).
  apply Hgone. reflexivity.
Defined.

Lemma C10_exit_tolerates_missing_file_witness :
  let E := sample_env nothing_fails in
  let s := (_cluster__exit__ E None (after_local nothing_fails)).2 in
  let out := _cluster__exit__ E None s in
  persist_yaml (self s) = Some false /\
  yaml_path (self s) = Some sample_path /\
  fs s !! sample_path = None /\
  out.1 = Ok tt /\
  fs out.2 = fs s /\
  EvRemove sample_path ∉ new_events s out.2.
Proof.
  intros E s out.
  assert (Hb : persist_yaml (self s) = Some false)
    by (vm_compute; reflexivity).
  assert (Hp : yaml_path (self s) = Some sample_path)
    by (vm_compute; reflexivity).
  assert (Hf : fs s !! sample_path = None) by (vm_compute; reflexivity).
  destruct (C10_exit_tolerates_missing_file E None s sample_path Hb Hp Hf)
    as (Hfs & Hnot & _).
  split; [exact Hb|]. split; [exact Hp|]. split; [exact Hf|].
  split; [vm_compute; reflexivity|]. split; [exact Hfs|].
  exact (Hnot sample_path).
Defined.

End ClusterFacts.

(* ===================================================================== *)
(** ** Further properties of the cluster wrappers                         *)
(* ===================================================================== *)

Module ClusterMore.
Import Clusters ClusterFacts.

(** The event built from [d] is not in an explicit list of events of other
    kinds. *)
Ltac not_logged_at d :=
  let H := fresh "Hin" in
  intros H;
  repeat (apply elem_of_cons in H as [H|H]; [discriminate H|]);
  by apply elem_of_nil in H.

Section more.
Context (E : env).

(** *** What the constructors leave behind, in full *)

Lemma slurm_kwargs_log_directory (kwargs : dict) :
  (if kwargs !! "local_directory" is None
   then <["local_directory" := VStr (default_local_directory E)]> kwargs
   else kwargs) !! "log_directory" = kwargs !! "log_directory".
Proof. case_match; [done|]. by rewrite lookup_insert_ne. Qed.

Lemma slurm_cluster__init___Ok_full ncpus processes threads lo hi walltime
    config kwargs s s' :
  slurm_cluster__init__ E ncpus processes threads lo hi walltime
    config kwargs s = (Ok tt, s') ->
  exists user line,
    environ E !! "USER" = Some user /\
    Forall (fun kv => slurm_kwargs E kwargs !! kv.1 = None)
      (slurm_explicit ncpus processes threads walltime) /\
    let c := {| backend_of := SLURM;
                new_spec_options :=
                  slurm_kwargs E kwargs ∪
                  list_to_map (slurm_explicit ncpus processes threads walltime);
                dashboard_link := backend_dashboard E |} in
    let cfg := (config ∪ slurm_config_defaults user) ∪ dask_config s in
    s' = {| self := {| client := Some TheClient; cluster := Some c;
                       yaml_path := Some (config_file E None);
                       persist_yaml := Some false;
                       adapt := Some (policy lo hi);
                       ncpus := Some ncpus;
                       min_workers := lo; max_workers := hi |};
            dask_config := cfg;
            fs := <[config_file E None := yaml_dump E cfg]> (fs s);
            log := log s ++
                   [EvOpenWrite (config_file E None)] ++
                   (if kwargs !! "log_directory" is None
                    then [EvMkdir (default_log_directory E)] else []) ++
                   [EvPrint ("memory requested: " +:+ str (15 * ncpus) +:+ "GB");
                    EvNewSLURMCluster (new_spec_options c);
                    EvNewClient;
                    EvPrint ("Cluster dashboard link:  " +:+ backend_dashboard E);
                    EvFlush;
                    EvAdapt (policy lo hi);
                    EvPrint line] |}.
Proof.
  intros H. unfold slurm_cluster__init__ in H.
  mskip H. mstep H Huser.
  destruct (environ E !! "USER") as [user|]; [|discriminate].
  injection Huser as <- <-.
  mstep H Hcfg. rewrite modify_dask_config_run in Hcfg.
  cbv zeta in Hcfg. revert Hcfg. case_fails; [discriminate|].
  intros [= <- <-].
  do 4 mskip H.
  mstep H Hdir. mskip H. mstep H Hnew. mstep H Hcli.
  do 4 mskip H.
  apply new_SLURMCluster_Ok_inv in Hnew as (Hfree & -> & ->).
  apply new_Client_Ok_inv in Hcli as ->.
  apply adapt_cluster_Ok_inv in H as (c' & n & _ & _ & _ & line & ->).
  exists user, line. split; [done|].
  destruct s as [[? ? ? ? ? ? ? ?] cfg0 files events].
  match goal with cli : client_obj |- _ => destruct cli end.
  fold (default_local_directory E) in Hdir, Hfree |- *.
  fold (default_log_directory E) in Hdir, Hfree |- *.
  rewrite slurm_kwargs_log_directory in Hdir.
  unfold slurm_kwargs. rewrite slurm_kwargs_log_directory.
  revert Hdir. destruct (kwargs !! "log_directory") as [d|] eqn:Hld.
  - intros [= <- <-]. split; [exact Hfree|].
    unfold logged, policy;
      cbn [self cluster client yaml_path persist_yaml adapt Clusters.ncpus
           min_workers max_workers dask_config fs log
           with_adapt with_max_workers with_min_workers with_client
           with_cluster with_ncpus with_persist_yaml with_yaml_path
           new_spec_options dashboard_link].
    destruct lo, hi; rewrite <- !app_assoc; reflexivity.
  - rewrite bind_run, call_run. case_fails; [discriminate|].
    intros [= <- <-]. split; [exact Hfree|].
    unfold logged, policy;
      cbn [self cluster client yaml_path persist_yaml adapt Clusters.ncpus
           min_workers max_workers dask_config fs log
           with_adapt with_max_workers with_min_workers with_client
           with_cluster with_ncpus with_persist_yaml with_yaml_path
           new_spec_options dashboard_link].
    destruct lo, hi; rewrite <- !app_assoc; reflexivity.
Qed.

(** *** Scope exit beyond the constructed case *)

Lemma exit_frame exc s :
  self (_cluster__exit__ E exc s).2 = self s /\
  dask_config (_cluster__exit__ E exc s).2 = dask_config s /\
  (forall q, yaml_path (self s) <> Some q ->
             fs (_cluster__exit__ E exc s).2 !! q = fs s !! q) /\
  (persist_yaml (self s) <> Some false ->
   fs (_cluster__exit__ E exc s).2 = fs s).
Proof.
  destruct s as [[c cl p b a n lo hi] config files events].
  unfold _cluster__exit__; mrun.
  destruct b as [[|]|]; simpl.
  - destruct c; simpl; [|done]. case_fails; [done|].
    destruct cl; simpl; [|done]. by case_fails.
  - destruct p as [p|]; simpl; [|done].
    destruct (bool_decide (is_Some (files !! p))); simpl.
    + case_fails; [done|].
      assert (forall q, Some p <> Some q -> delete p files !! q = files !! q)
        by (intros q Hq; apply lookup_delete_ne; congruence).
      destruct c; simpl; [|done]. case_fails; [done|].
      destruct cl; simpl; [|done]. by case_fails.
    + destruct c; simpl; [|done]. case_fails; [done|].
      destruct cl; simpl; [|done]. by case_fails.
  - done.
Qed.

(** X5. Whatever the wrapper's state and however [__exit__] ends, it changes
    neither the wrapper nor the process-wide configuration, it touches no
    file other than the one at [yaml_path], and it touches no file at all
    unless [persist_yaml] is [False]. *)
Theorem exit_only_touches_the_config_file exc s :
  let out := _cluster__exit__ E exc s in
  self out.2 = self s /\
  dask_config out.2 = dask_config s /\
  (forall q, yaml_path (self s) <> Some q -> fs out.2 !! q = fs s !! q) /\
  (persist_yaml (self s) <> Some false -> fs out.2 = fs s).
Proof. apply exit_frame. Qed.

(** X6. A wrapper on which [modify_dask_config] never ran has no
    [persist_yaml]: even with a cluster and a client attached through
    [set_cluster] and [set_client], [__exit__] raises [AttributeError]
    before doing anything, so neither the client is closed nor the
    cluster torn down. *)
Theorem exit_of_unconfigured_wrapper exc c k s :
  persist_yaml (self s) = None ->
  let out := (_cluster__init__ ;; set_cluster c ;; set_client k ;;
              _cluster__exit__ E exc) s in
  out.1 = Raise (AttributeError "persist_yaml") /\
  new_events s out.2 = [] /\
  cluster (self out.2) = Some c /\ client (self out.2) = Some k.
Proof.
  destruct s as [[? ? ? b ? ? ? ?] config files events]; simpl.
  intros ->. unfold _cluster__exit__, new_events; mrun.
  by rewrite drop_all.
Qed.

(** X7. A configured wrapper without a client: [__exit__] first removes the
    configuration file, then raises [AttributeError] on [client.close];
    the cluster teardown is not attempted. *)
Theorem exit_without_client exc s p :
  persist_yaml (self s) = Some false ->
  yaml_path (self s) = Some p ->
  is_Some (fs s !! p) ->
  fails E (EvRemove p) = false ->
  client (self s) = None ->
  let out := _cluster__exit__ E exc s in
  out.1 = Raise (AttributeError "client.close") /\
  new_events s out.2 = [EvRemove p] /\
  fs out.2 = delete p (fs s).
Proof.
  destruct s as [[c cl p' b a n lo hi] config files events]; simpl.
  intros -> -> Hin Hrm ->. unfold _cluster__exit__, new_events; mrun.
  rewrite bool_decide_true by done. simpl. rewrite Hrm. simpl.
  by rewrite drop_app_length.
Qed.

(** X8. Leaving the scope twice: after an [__exit__] that returned normally
    with [persist_yaml=False], a second [__exit__] with the same arguments
    attempts no removal, leaves the files as they are, and closes the
    client and tears down the cluster once more. *)
Theorem second_exit_removes_nothing exc s s1 :
  constructed (self s) ->
  persist_yaml (self s) = Some false ->
  _cluster__exit__ E exc s = (Ok tt, s1) ->
  let out := _cluster__exit__ E exc s1 in
  out.1 = Ok tt /\
  new_events s1 out.2 = [EvClientClose; EvClusterExit exc] /\
  fs out.2 = fs s1.
Proof.
  intros Hw Hb H1 out. subst out.
  destruct Hw as ([c Hc] & [cl Hcl] & [p Hp] & _).
  destruct s as [[c0 cl0 p0 b0 a n lo hi] config files events].
  simpl in *. subst.
  revert H1. unfold _cluster__exit__ at 1; mrun.
  destruct (bool_decide (is_Some (files !! p))) eqn:Hex; simpl.
  - case_fails; [discriminate|]. case_fails; [discriminate|].
    case_fails; [discriminate|]. intros [= <-].
    unfold _cluster__exit__, new_events; mrun.
    rewrite bool_decide_false
      by (rewrite lookup_delete_eq; by intros [? ?]).
    simpl. rewrite Heqb0. simpl. rewrite Heqb1. simpl.
    match goal with
    | |- context [drop (length ?L) _] => generalize L; intros done_so_far
    end.
    by rewrite <- app_assoc, drop_app_length.
  - case_fails; [discriminate|]. case_fails; [discriminate|].
    intros [= <-].
    unfold _cluster__exit__, new_events; mrun.
    rewrite Hex. simpl. rewrite Heqb. simpl. rewrite Heqb0. simpl.
    match goal with
    | |- context [drop (length ?L) _] => generalize L; intros done_so_far
    end.
    by rewrite <- app_assoc, drop_app_length.
Qed.

(** *** [modify_dask_config] beyond the merge *)

(** X9. When the file cannot be opened, [modify_dask_config] raises after the
    process-wide configuration has already been changed: the options are
    in effect, but no file is written and [yaml_path] and [persist_yaml]
    keep their previous values. *)
Theorem modify_dask_config_failure_keeps_options options yaml_name persist s :
  fails E (EvOpenWrite (config_file E yaml_name)) = true ->
  let out := modify_dask_config E options yaml_name persist s in
  out.1 = Raise (Failed (EvOpenWrite (config_file E yaml_name))) /\
  dask_config out.2 = options ∪ dask_config s /\
  fs out.2 = fs s /\
  self out.2 = self s.
Proof.
  intros Hf out. subst out. rewrite modify_dask_config_run. cbv zeta.
  by rewrite Hf.
Qed.

(** X10. After a successful [modify_dask_config] the file at [yaml_path] holds
    the dump of the whole process-wide configuration as it now is (entries
    the call did not mention included), replacing whatever content the
    file had; no other file and no other part of the wrapper (client,
    cluster, scaling attributes) is touched. *)
Theorem modify_dask_config_snapshot options yaml_name persist s s' :
  modify_dask_config E options yaml_name persist s = (Ok tt, s') ->
  yaml_path (self s') = Some (config_file E yaml_name) /\
  persist_yaml (self s') = Some (default false persist) /\
  fs s' !! config_file E yaml_name = Some (yaml_dump E (dask_config s')) /\
  (forall k, options !! k = None -> dask_config s' !! k = dask_config s !! k) /\
  (forall q, q <> config_file E yaml_name -> fs s' !! q = fs s !! q) /\
  client (self s') = client (self s) /\
  cluster (self s') = cluster (self s) /\
  adapt (self s') = adapt (self s) /\
  min_workers (self s') = min_workers (self s) /\
  max_workers (self s') = max_workers (self s).
Proof.
  rewrite modify_dask_config_run. cbv zeta. case_fails; [discriminate|].
  intros [= <-]. destruct s as [[? ? ? ? ? ? ? ?] ? ? ?]; simpl.
  rewrite lookup_insert_eq. repeat split; try done.
  - intros k Hk. by rewrite lookup_union_r.
  - intros q Hq. by rewrite lookup_insert_ne.
Qed.

(** *** The local and remote constructors, outcome by outcome *)

Lemma local_cluster__init___run config memory_limit kwargs s :
  local_cluster__init__ E config memory_limit kwargs s =
    let path := config_file E None in
    let cfg := config ∪ dask_config s in
    let kw := local_kwargs memory_limit kwargs in
    let base := with_cluster None (with_client None (self s)) in
    let configured :=
      with_persist_yaml (Some false) (with_yaml_path (Some path) base) in
    let c := {| backend_of := Local; new_spec_options := kw;
                dashboard_link := backend_dashboard E |} in
    let files := <[path := yaml_dump E cfg]> (fs s) in
    if fails E (EvOpenWrite path) then
      (Raise (Failed (EvOpenWrite path)),
       {| self := base; dask_config := cfg; fs := fs s;
          log := log s ++ [EvOpenWrite path] |})
    else if fails E (EvNewLocalCluster kw) then
      (Raise (Failed (EvNewLocalCluster kw)),
       {| self := configured; dask_config := cfg; fs := files;
          log := log s ++ [EvOpenWrite path; EvNewLocalCluster kw] |})
    else if fails E EvNewClient then
      (Raise (Failed EvNewClient),
       {| self := configured; dask_config := cfg; fs := files;
          log := log s ++ [EvOpenWrite path; EvNewLocalCluster kw;
                           EvNewClient] |})
    else
      (Ok tt,
       {| self := with_client (Some TheClient)
                    (with_cluster (Some c) configured);
          dask_config := cfg; fs := files;
          log := log s ++ [EvOpenWrite path; EvNewLocalCluster kw;
                           EvNewClient] |}).
Proof.
  unfold local_cluster__init__, modify_dask_config, local_kwargs, config_file.
  mrun. rewrite (right_id_L ∅ (∪) config).
  repeat (case_fails; rewrite <- ?app_assoc; try reflexivity).
Qed.

Lemma remote_cluster__init___run cl config s :
  remote_cluster__init__ E cl config s =
    let path := config_file E None in
    let cfg := config ∪ dask_config s in
    let base := with_cluster None (with_client None (self s)) in
    let configured :=
      with_persist_yaml (Some false) (with_yaml_path (Some path) base) in
    let files := <[path := yaml_dump E cfg]> (fs s) in
    if fails E (EvOpenWrite path) then
      (Raise (Failed (EvOpenWrite path)),
       {| self := base; dask_config := cfg; fs := fs s;
          log := log s ++ [EvOpenWrite path] |})
    else if fails E EvNewClient then
      (Raise (Failed EvNewClient),
       {| self := configured; dask_config := cfg; fs := files;
          log := log s ++ [EvOpenWrite path; EvNewClient] |})
    else
      (Ok tt,
       {| self := with_client (Some TheClient)
                    (with_cluster (Some cl) configured);
          dask_config := cfg; fs := files;
          log := log s ++ [EvOpenWrite path; EvNewClient] |}).
Proof.
  unfold remote_cluster__init__, modify_dask_config, config_file.
  mrun. rewrite (right_id_L ∅ (∪) config).
  repeat (case_fails; rewrite <- ?app_assoc; try reflexivity).
Qed.

Lemma local_kwargs_host memory_limit (kwargs : dict) :
  local_kwargs memory_limit kwargs !! "host" =
    Some (default (VStr "") (kwargs !! "host")).
Proof.
  unfold local_kwargs.
  destruct (kwargs !! "host") as [h|] eqn:Hh, memory_limit as [v|]; simpl;
    rewrite ?lookup_insert_ne by done; by rewrite ?lookup_insert_eq.
Qed.

Lemma local_kwargs_memory_limit memory_limit (kwargs : dict) :
  local_kwargs memory_limit kwargs !! "memory_limit" =
    if memory_limit is Some v then Some v else kwargs !! "memory_limit".
Proof.
  unfold local_kwargs.
  destruct (kwargs !! "host") as [h|] eqn:Hh, memory_limit as [v|]; simpl;
    rewrite ?lookup_insert_eq; try done; by rewrite lookup_insert_ne.
Qed.

Lemma local_kwargs_other memory_limit (kwargs : dict) k :
  k <> "host" -> k <> "memory_limit" ->
  local_kwargs memory_limit kwargs !! k = kwargs !! k.
Proof.
  intros Hh Hm. unfold local_kwargs.
  destruct (kwargs !! "host"), memory_limit; simpl;
    by rewrite ?lookup_insert_ne.
Qed.

(** X12. [local_cluster(config, memory_limit, **kwargs)]: the backend
    receives the caller's keywords, with [host] defaulting to the empty
    string when the caller gave none, and with a [memory_limit] keyword
    exactly when the [memory_limit] argument is not [None] (the caller's
    keywords cannot hold one: [memory_limit] is a parameter). Nothing but
    writing the file, creating the pool and connecting the client is
    done, and no scaling attribute is set. *)
Theorem local_cluster_keywords config memory_limit kwargs s s' :
  construct E (Call_local_cluster config memory_limit kwargs) s = (Ok tt, s') ->
  kwargs !! "memory_limit" = None /\ kwargs !! "config" = None /\
  exists c,
    cluster (self s') = Some c /\ backend_of c = Local /\
    new_events s s' = [EvOpenWrite (config_file E None);
                       EvNewLocalCluster (new_spec_options c); EvNewClient] /\
    new_spec_options c !! "host" =
      Some (default (VStr "") (kwargs !! "host")) /\
    new_spec_options c !! "memory_limit" = memory_limit /\
    (forall k, k <> "host" -> k <> "memory_limit" ->
               new_spec_options c !! k = kwargs !! k) /\
    adapt (self s') = None /\ min_workers (self s') = None /\
    max_workers (self s') = None.
Proof.
  unfold construct. case_bool_decide as Hnames; [intros Hc; discriminate Hc|].
  apply not_Exists_Forall in Hnames; [|intros ?; apply _].
  cbn [parameter_names extra_keywords] in Hnames.
  rewrite !Forall_cons in Hnames. destruct Hnames as (_ & Hcfg & Hmem & _).
  apply eq_None_not_Some in Hcfg, Hmem.
  rewrite bind_run.
  cbv beta iota delta [set_self update]. rewrite local_cluster__init___run.
  cbv zeta. do 3 (case_fails; [discriminate|]). intros [= <-].
  split; [done|]. split; [done|].
  eexists. cbn [self cluster with_client with_cluster new_spec_options
                backend_of adapt min_workers max_workers].
  split; [reflexivity|]. cbn [new_spec_options backend_of].
  split; [done|]. split; [by apply new_events_app|].
  split; [apply local_kwargs_host|].
  split; [rewrite local_kwargs_memory_limit, Hmem; by destruct memory_limit|].
  split; [apply local_kwargs_other|]. done.
Qed.

(** X13. When [local_cluster] fails after the configuration file has been
    written (the pool cannot be created, or the client cannot connect),
    the exception leaves the constructor with the file still on disk and
    the process-wide configuration changed; no client or cluster is
    stored, and a pool that had already been created is not torn down. *)
Theorem local_cluster_failure_leaves_file config memory_limit kwargs s :
  let kw := local_kwargs memory_limit kwargs in
  let out := local_cluster__init__ E config memory_limit kwargs s in
  fails E (EvOpenWrite (config_file E None)) = false ->
  fails E (EvNewLocalCluster kw) = true \/ fails E EvNewClient = true ->
  out.1 <> Ok tt /\
  is_Some (fs out.2 !! config_file E None) /\
  dask_config out.2 = config ∪ dask_config s /\
  client (self out.2) = None /\ cluster (self out.2) = None /\
  (forall exc, EvClusterExit exc ∉ new_events s out.2) /\
  (fails E (EvNewLocalCluster kw) = false ->
   EvNewLocalCluster kw ∈ new_events s out.2).
Proof.
  intros kw out Hopen Hfail. subst out kw.
  rewrite local_cluster__init___run. cbv zeta. rewrite Hopen.
  destruct (fails E (EvNewLocalCluster _)) eqn:Hnew.
  - cbn [fst snd self fs dask_config log client cluster with_persist_yaml
         with_yaml_path with_cluster with_client].
    rewrite lookup_insert_eq.
    erewrite new_events_app by reflexivity.
    repeat split; try done; eauto. not_logged.
  - destruct Hfail as [Hfail|Hfail]; [discriminate|]. rewrite Hfail.
    cbn [fst snd self fs dask_config log client cluster with_persist_yaml
         with_yaml_path with_cluster with_client].
    rewrite lookup_insert_eq.
    erewrite new_events_app by reflexivity.
    repeat split; try done; eauto.
    + not_logged.
    + intros _. apply list_elem_of_further, list_elem_of_here.
Qed.

(** X14. [remote_cluster(cluster, config)] stores the very cluster object it
    was given, creates no pool and sets no scaling attribute: all it does
    is write the configuration file and connect a client. *)
Theorem remote_cluster_wraps_given_cluster cl config s s' :
  construct E (Call_remote_cluster cl config) s = (Ok tt, s') ->
  cluster (self s') = Some cl /\
  new_events s s' = [EvOpenWrite (config_file E None); EvNewClient] /\
  dask_config s' = config ∪ dask_config s /\
  adapt (self s') = None /\ min_workers (self s') = None /\
  max_workers (self s') = None.
Proof.
  unfold construct. case_bool_decide as Hnames; [intros Hc; discriminate Hc|].
  rewrite bind_run.
  cbv beta iota delta [set_self update]. rewrite remote_cluster__init___run.
  cbv zeta. do 2 (case_fails; [discriminate|]). intros [= <-].
  cbn [self cluster with_client with_cluster adapt min_workers max_workers
       dask_config].
  split; [done|]. split; [by apply new_events_app|]. done.
Qed.

(** X15. [get_dashboard] never raises and never changes anything. On a wrapper
    that only ran the base [__init__] it returns [None]; after a public
    constructor it returns the link of the attached cluster: the
    backend's for a pool the wrapper created, the given cluster's own for
    [remote_cluster]. *)
Theorem get_dashboard_link call s s' :
  get_dashboard (_cluster__init__ s).2 = (Ok None, (_cluster__init__ s).2) /\
  (construct E call s = (Ok tt, s') ->
   get_dashboard s' =
     (Ok (Some (if call is Call_remote_cluster cl _ then dashboard_link cl
                else backend_dashboard E)), s')).
Proof.
  split; [reflexivity|].
  unfold construct. case_bool_decide as Hnames; [intros Hc; discriminate Hc|].
  rewrite bind_run. cbv beta iota delta [set_self update].
  destruct call.
  - intros H. apply slurm_cluster__init___Ok_full in H
      as (user & line & _ & _ & ->). reflexivity.
  - rewrite local_cluster__init___run. cbv zeta.
    do 3 (case_fails; [discriminate|]). by intros [= <-].
  - rewrite remote_cluster__init___run. cbv zeta.
    do 2 (case_fails; [discriminate|]). by intros [= <-].
Qed.

(** *** The batch-queue constructor in detail *)

Lemma slurm_kwargs_keeps (kwargs : dict) k v :
  kwargs !! k = Some v -> slurm_kwargs E kwargs !! k = Some v.
Proof.
  intros Hk. unfold slurm_kwargs. rewrite slurm_kwargs_log_directory.
  destruct (kwargs !! "local_directory") eqn:Hloc,
           (kwargs !! "log_directory") eqn:Hlog; try done.
  - rewrite lookup_insert_ne; [done|]. intros <-. congruence.
  - rewrite lookup_insert_ne; [done|]. intros <-. congruence.
  - rewrite !lookup_insert_ne; [done| |]; intros <-; congruence.
Qed.

Lemma slurm_kwargs_local_directory (kwargs : dict) :
  slurm_kwargs E kwargs !! "local_directory" =
    Some (default (VStr (default_local_directory E))
            (kwargs !! "local_directory")).
Proof.
  unfold slurm_kwargs. rewrite slurm_kwargs_log_directory.
  destruct (kwargs !! "local_directory") eqn:Hloc,
           (kwargs !! "log_directory") eqn:Hlog; simpl;
    rewrite ?lookup_insert_ne by done; by rewrite ?lookup_insert_eq.
Qed.

Lemma slurm_kwargs_log_directory_value (kwargs : dict) :
  slurm_kwargs E kwargs !! "log_directory" =
    Some (default (VStr (default_log_directory E))
            (kwargs !! "log_directory")).
Proof.
  unfold slurm_kwargs. rewrite slurm_kwargs_log_directory.
  destruct (kwargs !! "local_directory") eqn:Hloc,
           (kwargs !! "log_directory") eqn:Hlog; simpl;
    rewrite ?lookup_insert_eq; try done; by rewrite lookup_insert_ne.
Qed.

(** X16. Without [USER] in the environment [slurm_cluster] raises [KeyError]
    at once: nothing has been written, configured or created. *)
Theorem slurm_cluster_needs_USER ncpus processes threads lo hi walltime
    config kwargs s :
  environ E !! "USER" = None ->
  let out := slurm_cluster__init__ E ncpus processes threads lo hi walltime
               config kwargs s in
  out.1 = Raise (KeyError "USER") /\
  new_events s out.2 = [] /\
  fs out.2 = fs s /\ dask_config out.2 = dask_config s.
Proof.
  intros Hu out. subst out. unfold slurm_cluster__init__.
  cbv beta iota delta [_cluster__init__ mbind M_bind set_self update].
  rewrite Hu. cbv beta iota delta [raise].
  cbn [fst snd fs dask_config log].
  unfold new_events. cbn [log]. by rewrite drop_all.
Qed.

(** X17. A keyword that [slurm_cluster] itself passes to the backend ([cores],
    [processes], [memory], [walltime], [job_script_prologue]) cannot be
    given through [**kwargs]: the constructor then never returns
    normally. *)
Theorem slurm_cluster_rejects_reserved_keyword ncpus processes threads lo hi
    walltime config kwargs k s :
  k ∈ reserved_keywords ->
  is_Some (kwargs !! k) ->
  (slurm_cluster__init__ E ncpus processes threads lo hi walltime
     config kwargs s).1 <> Ok tt.
Proof.
  intros Hk [v Hv] Hok.
  destruct (slurm_cluster__init__ E ncpus processes threads lo hi walltime
              config kwargs s) as [r s'] eqn:Hrun.
  simpl in Hok. subst r.
  apply slurm_cluster__init___Ok_full in Hrun
    as (user & line & _ & Hfree & _).
  apply slurm_kwargs_keeps in Hv.
  unfold slurm_explicit in Hfree. rewrite !Forall_cons in Hfree.
  destruct Hfree as (H1 & H2 & H3 & H4 & H5 & _). simpl in *.
  unfold reserved_keywords in Hk.
  repeat (apply elem_of_cons in Hk as [->|Hk]; [congruence|]).
  by apply elem_of_nil in Hk.
Qed.

(** X18. The configuration [slurm_cluster] puts in effect: the caller's
    [config] entries win, the three defaults (temporary directory under
    the user's name, connect timeout 180s, tcp timeout 360s) apply where
    the caller gave none, every other entry of the process-wide
    configuration is retained, and the file holds the dump of the
    result. *)
Theorem slurm_cluster_configuration ncpus processes threads lo hi walltime
    config kwargs s s' :
  slurm_cluster__init__ E ncpus processes threads lo hi walltime
    config kwargs s = (Ok tt, s') ->
  exists user,
    environ E !! "USER" = Some user /\
    (forall k v, config !! k = Some v -> dask_config s' !! k = Some v) /\
    (config !! "temporary-directory" = None ->
     dask_config s' !! "temporary-directory" =
       Some (VStr ("/local/workdir/temp/" +:+ user +:+ "/"))) /\
    (config !! "distributed.comm.timeouts.connect" = None ->
     dask_config s' !! "distributed.comm.timeouts.connect" =
       Some (VStr "180s")) /\
    (config !! "distributed.comm.timeouts.tcp" = None ->
     dask_config s' !! "distributed.comm.timeouts.tcp" = Some (VStr "360s")) /\
    (forall k, config !! k = None -> slurm_config_defaults user !! k = None ->
               dask_config s' !! k = dask_config s !! k) /\
    fs s' !! config_file E None = Some (yaml_dump E (dask_config s')).
Proof.
  intros H. apply slurm_cluster__init___Ok_full in H
    as (user & line & Hu & _ & ->).
  exists user. cbn [dask_config fs]. split; [done|].
  split; [|split; [|split; [|split; [|split]]]].
  - intros k v Hk. by apply lookup_union_Some_l, lookup_union_Some_l.
  - intros Hk. apply lookup_union_Some_l. by rewrite lookup_union_r.
  - intros Hk. apply lookup_union_Some_l. by rewrite lookup_union_r.
  - intros Hk. apply lookup_union_Some_l. by rewrite lookup_union_r.
  - intros k Hk Hd. rewrite lookup_union_r; [done|].
    by rewrite lookup_union_r.
  - apply lookup_insert_eq.
Qed.

(** X19. The keywords [slurm_cluster] hands to the backend besides memory and
    prologue: [cores] is [threads], or [ncpus] when [threads] is [None];
    [processes] and [walltime] are passed through; every keyword of the
    caller is passed through; the two directories default to
    [<cwd>/dask_workers/] and [<cwd>/dask_worker_logs_<pid>/] only where
    the caller gave none; and the log directory is created exactly when
    the default is used. *)
Theorem slurm_cluster_keywords ncpus processes threads lo hi walltime
    config kwargs s s' :
  slurm_cluster__init__ E ncpus processes threads lo hi walltime
    config kwargs s = (Ok tt, s') ->
  exists c,
    cluster (self s') = Some c /\
    new_spec_options c !! "cores" = Some (VInt (default ncpus threads)) /\
    new_spec_options c !! "processes" = Some (VInt processes) /\
    new_spec_options c !! "walltime" = Some (VStr walltime) /\
    (forall k v, kwargs !! k = Some v -> new_spec_options c !! k = Some v) /\
    new_spec_options c !! "local_directory" =
      Some (default (VStr (cwd E +:+ "/dask_workers/"))
              (kwargs !! "local_directory")) /\
    new_spec_options c !! "log_directory" =
      Some (default (VStr (cwd E +:+ "/dask_worker_logs_" +:+ str (pid E)
                           +:+ "/"))
              (kwargs !! "log_directory")) /\
    (kwargs !! "log_directory" = None ->
     EvMkdir (cwd E +:+ "/dask_worker_logs_" +:+ str (pid E) +:+ "/")
       ∈ new_events s s') /\
    (is_Some (kwargs !! "log_directory") ->
     forall d, EvMkdir d ∉ new_events s s').
Proof.
  intros H. apply slurm_cluster__init___Ok_full in H
    as (user & line & _ & Hfree & ->).
  unfold slurm_explicit in Hfree. rewrite !Forall_cons in Hfree.
  destruct Hfree as (H1 & H2 & _ & H4 & _). simpl in H1, H2, H4.
  eexists. cbn [self cluster]. split; [reflexivity|].
  cbn [new_spec_options].
  erewrite new_events_app by reflexivity.
  split; [rewrite lookup_union_r by done; reflexivity|].
  split; [rewrite lookup_union_r by done; reflexivity|].
  split; [rewrite lookup_union_r by done; reflexivity|].
  split; [intros k v Hk; by apply lookup_union_Some_l, slurm_kwargs_keeps|].
  split; [apply lookup_union_Some_l, slurm_kwargs_local_directory|].
  split; [apply lookup_union_Some_l, slurm_kwargs_log_directory_value|].
  split.
  - intros ->. apply list_elem_of_further, list_elem_of_here.
  - intros [d' ->] d. not_logged_at d.
Qed.

(** X20. The scaling attributes after [slurm_cluster(...)]: [ncpus],
    [min_workers] and [max_workers] are the arguments as given ([None]
    included), and the adaptive policy, installed last, has exactly these
    bounds with interval 10s and wait count 6. *)
Theorem slurm_cluster_bounds ncpus processes threads lo hi walltime
    config kwargs s s' :
  slurm_cluster__init__ E ncpus processes threads lo hi walltime
    config kwargs s = (Ok tt, s') ->
  Clusters.ncpus (self s') = Some ncpus /\
  min_workers (self s') = lo /\ max_workers (self s') = hi /\
  adapt (self s') =
    Some {| minimum_jobs := lo; maximum_jobs := hi;
            interval := "10s"; wait_count := 6 |} /\
  exists before line,
    new_events s s' =
      before ++ [EvAdapt {| minimum_jobs := lo; maximum_jobs := hi;
                            interval := "10s"; wait_count := 6 |};
                 EvPrint line] /\
    forall a, EvAdapt a ∉ before.
Proof.
  intros H. apply slurm_cluster__init___Ok_full in H
    as (user & line & _ & _ & ->).
  cbn [self Clusters.ncpus min_workers max_workers adapt].
  repeat (split; [reflexivity|]).
  erewrite new_events_app by reflexivity.
  eexists (_ :: (_ ++ [_; _; _; _; _])), line. split.
  - cbn [app]. f_equal. rewrite <- app_assoc. reflexivity.
  - intros a Ha.
    apply elem_of_cons in Ha as [Ha|Ha]; [discriminate|].
    apply elem_of_app in Ha as [Ha|Ha].
    + revert Ha. case_match; [by intros ?%elem_of_nil|].
      intros Ha. apply elem_of_cons in Ha as [Ha|Ha]; [discriminate|].
      by apply elem_of_nil in Ha.
    + revert a Ha. not_logged.
Qed.

(** *** Re-scaling *)

(** What [adapt_cluster] leaves alone, however it ends. *)
Lemma adapt_cluster_frame mn mx s :
  let out := adapt_cluster E mn mx s in
  fs out.2 = fs s /\ dask_config out.2 = dask_config s /\
  client (self out.2) = client (self s) /\
  cluster (self out.2) = cluster (self s) /\
  yaml_path (self out.2) = yaml_path (self s) /\
  persist_yaml (self out.2) = persist_yaml (self s) /\
  ncpus (self out.2) = ncpus (self s).
Proof.
  destruct s as [[c cl p b a n lo hi] config files events].
  unfold adapt_cluster; mrun.
  destruct mn, mx; mrun; (destruct cl; simpl; [|done]);
    (case_fails; [done|]); by destruct n.
Qed.

Lemma adapt_cluster_failure_run mn mx s c :
  cluster (self s) = Some c ->
  let lo := if mn is Some _ then mn else min_workers (self s) in
  let hi := if mx is Some _ then mx else max_workers (self s) in
  fails E (EvAdapt (policy lo hi)) = true ->
  adapt_cluster E mn mx s =
    (Raise (Failed (EvAdapt (policy lo hi))),
     {| self := with_max_workers hi (with_min_workers lo (self s));
        dask_config := dask_config s; fs := fs s;
        log := log s ++ [EvAdapt (policy lo hi)] |}).
Proof.
  destruct s as [[k cl p b a n lo0 hi0] config files events]; simpl.
  intros -> Hf. unfold adapt_cluster. unfold policy in Hf.
  destruct mn, mx; mrun; simpl in Hf; by rewrite Hf.
Qed.

(** X21. [adapt_cluster(min_workers, max_workers)] treats [None] as "keep": a
    bound given as [None] leaves the stored bound as it is, a bound given
    as a number replaces it, and the policy installed (interval 10s, wait
    count 6) always carries the bounds as stored afterwards. Nothing else
    changes. *)
Theorem adapt_cluster_None_keeps_bound mn mx s s' :
  adapt_cluster E mn mx s = (Ok tt, s') ->
  min_workers (self s') = (if mn is Some _ then mn else min_workers (self s)) /\
  max_workers (self s') = (if mx is Some _ then mx else max_workers (self s)) /\
  adapt (self s') =
    Some {| minimum_jobs := min_workers (self s');
            maximum_jobs := max_workers (self s');
            interval := "10s"; wait_count := 6 |} /\
  (exists line,
     new_events s s' =
       [EvAdapt {| minimum_jobs := min_workers (self s');
                   maximum_jobs := max_workers (self s');
                   interval := "10s"; wait_count := 6 |};
        EvPrint line]) /\
  cluster (self s') = cluster (self s) /\
  fs s' = fs s /\ dask_config s' = dask_config s.
Proof.
  intros H. apply adapt_cluster_Ok_inv in H
    as (c & n & _ & _ & _ & line & ->).
  destruct s as [[? ? ? ? ? ? ? ?] ? ? ?]; simpl.
  repeat split; try done. exists line. by apply new_events_app.
Qed.

(** X22. When the backend's [adapt] raises, [adapt_cluster] has already stored
    the new bounds: [min_workers] and [max_workers] hold the values of the
    failed request while [self.adapt] is still the previous policy. *)
Theorem adapt_cluster_failure_keeps_new_bounds mn mx s c :
  cluster (self s) = Some c ->
  let lo := if mn is Some _ then mn else min_workers (self s) in
  let hi := if mx is Some _ then mx else max_workers (self s) in
  fails E (EvAdapt (policy lo hi)) = true ->
  let out := adapt_cluster E mn mx s in
  out.1 = Raise (Failed (EvAdapt (policy lo hi))) /\
  min_workers (self out.2) = lo /\ max_workers (self out.2) = hi /\
  adapt (self out.2) = adapt (self s).
Proof.
  intros Hc lo hi Hf out. subst out.
  rewrite (adapt_cluster_failure_run mn mx s c Hc Hf).
  by destruct (self s).
Qed.

(** X23. How [change_worker_attributes] fails. Without a cluster it raises
    [AttributeError] and does nothing. If scaling to zero raises, no
    override has been written. If the final [adapt] raises, nothing is
    rolled back: the pool has been scaled to zero and the stored option
    template already holds every override. *)
Theorem change_worker_attributes_failures mn mx kwargs s :
  let out := change_worker_attributes E mn mx kwargs s in
  (cluster (self s) = None ->
   out = (Raise (AttributeError "cluster.scale"), s)) /\
  (is_Some (cluster (self s)) -> fails E (EvScale 0) = true ->
   out.1 = Raise (Failed (EvScale 0)) /\
   new_events s out.2 = [EvScale 0] /\ self out.2 = self s) /\
  (forall c,
     cluster (self s) = Some c -> fails E (EvScale 0) = false ->
     let lo := if mn is Some _ then mn else min_workers (self s) in
     let hi := if mx is Some _ then mx else max_workers (self s) in
     fails E (EvAdapt (policy lo hi)) = true ->
     out.1 = Raise (Failed (EvAdapt (policy lo hi))) /\
     new_events s out.2 =
       [EvScale 0] ++ override_events kwargs ++ [EvAdapt (policy lo hi)] /\
     cluster (self out.2) =
       Some (with_options (apply_overrides kwargs (new_spec_options c)) c)).
Proof.
  intros out. subst out. unfold change_worker_attributes.
  rewrite bind_run. unfold getattr. cbv beta.
  split; [|split].
  - by intros ->.
  - intros [c ->] Hf. rewrite bind_run, call_run, Hf.
    cbn [fst snd self logged]. split; [done|]. split; [|done].
    by apply new_events_app.
  - intros c Hc0 Hs Hf. rewrite Hc0.
    rewrite bind_run, call_run, Hs, bind_run.
    assert (Hc : cluster (self (logged (EvScale 0) s)) = Some c)
      by (destruct s; simpl in *; congruence).
    rewrite (for_each_set_option_run kwargs _ c Hc).
    erewrite adapt_cluster_failure_run.
    2:{ cbn [self]. destruct s as [[? ? ? ? ? ? ? ?] ? ? ?]. reflexivity. }
    2:{ destruct s as [[? ? ? ? ? ? ? ?] ? ? ?]. exact Hf. }
    destruct s as [[? ? ? ? ? ? ? ?] ? ? ?]. simpl in *.
    split; [done|]. split; [|done].
    apply new_events_app. simpl. by rewrite <- !app_assoc.
Qed.

(** X24. [change_worker_attributes], however it ends, touches neither the
    files nor the process-wide configuration nor the client,
    [yaml_path] or [persist_yaml]; and it keeps the same cluster
    attached, changing at most its option template. *)
Theorem change_worker_attributes_frame mn mx kwargs s :
  let out := change_worker_attributes E mn mx kwargs s in
  fs out.2 = fs s /\ dask_config out.2 = dask_config s /\
  client (self out.2) = client (self s) /\
  yaml_path (self out.2) = yaml_path (self s) /\
  persist_yaml (self out.2) = persist_yaml (self s) /\
  (forall c, cluster (self s) = Some c ->
     exists c', cluster (self out.2) = Some c' /\
                backend_of c' = backend_of c /\
                dashboard_link c' = dashboard_link c).
Proof.
  intros out. subst out. unfold change_worker_attributes.
  rewrite bind_run. unfold getattr. cbv beta.
  destruct (cluster (self s)) as [c|] eqn:Hc;
    [|simpl; repeat split; done].
  cbv beta iota. rewrite bind_run, call_run.
  case_fails.
  { repeat split; try done. intros ? [= <-]. rewrite Hc. eauto. }
  rewrite bind_run.
  assert (Hc' : cluster (self (logged (EvScale 0) s)) = Some c) by done.
  rewrite (for_each_set_option_run kwargs _ c Hc').
  match goal with
  | |- context [adapt_cluster E mn mx ?s1] =>
      destruct (adapt_cluster_frame mn mx s1)
        as (Hfs & Hcfg & Hcli & Hcl & Hp & Hb & _)
  end.
  rewrite Hfs, Hcfg, Hcli, Hcl, Hp, Hb.
  destruct s as [[? ? ? ? ? ? ? ?] ? ? ?]; simpl in *.
  repeat split; try done. intros ? [= <-]. subst. destruct c. eauto.
Qed.

End more.

(** *** The properties on concrete inputs *)

Lemma exit_only_touches_the_config_file_witness :
  let E0 := sample_env nothing_fails in
  let s := {| self := self (after_local nothing_fails);
              dask_config := dask_config (after_local nothing_fails);
              fs := <["/home/ada/notes.txt" := "keep"]>
                      (fs (after_local nothing_fails));
              log := [] |} in
  let out := _cluster__exit__ E0 None s in
  fs out.2 !! "/home/ada/notes.txt" = Some "keep" /\
  fs out.2 !! sample_path = None.
Proof.
  intros E0 s out. split; [|vm_compute; reflexivity].
  destruct (exit_only_touches_the_config_file E0 None s) as (_ & _ & Hf & _).
  etransitivity; [apply Hf|vm_compute; reflexivity].
  vm_compute. intros Hq. discriminate Hq.
Defined.

Lemma exit_of_unconfigured_wrapper_witness :
  let E0 := sample_env nothing_fails in
  let c := {| backend_of := Foreign; new_spec_options := ∅;
              dashboard_link := "http://10.0.0.1:8787/status" |} in
  let out := (_cluster__init__ ;; set_cluster c ;; set_client TheClient ;;
              _cluster__exit__ E0 None) fresh in
  persist_yaml (self fresh) = None /\
  out.1 = Raise (AttributeError "persist_yaml") /\
  new_events fresh out.2 = [].
Proof.
  intros E0 c out.
  assert (Hp : persist_yaml (self fresh) = None) by reflexivity.
  split; [exact Hp|].
  destruct (exit_of_unconfigured_wrapper E0 None c TheClient fresh Hp)
    as (Hr & Hev & _).
  split; [exact Hr|exact Hev].
Defined.

Lemma exit_without_client_witness :
  let E0 := sample_env nothing_fails in
  let s := (_cluster__init__ ;; modify_dask_config E0 ∅ None None) fresh in
  let out := _cluster__exit__ E0 None s.2 in
  s.1 = Ok tt /\
  out.1 = Raise (AttributeError "client.close") /\
  new_events s.2 out.2 = [EvRemove sample_path] /\
  fs out.2 !! sample_path = None.
Proof.
  intros E0 s out. split; [vm_compute; reflexivity|].
  assert (Hb : persist_yaml (self s.2) = Some false) by (vm_compute; reflexivity).
  assert (Hp : yaml_path (self s.2) = Some sample_path) by (vm_compute; reflexivity).
  assert (Hf : is_Some (fs s.2 !! sample_path)) by (vm_compute; eauto).
  assert (Hr : fails E0 (EvRemove sample_path) = false) by reflexivity.
  assert (Hc : client (self s.2) = None) by (vm_compute; reflexivity).
  destruct (exit_without_client E0 None s.2 sample_path Hb Hp Hf Hr Hc)
    as (Hres & Hev & Hfs).
  split; [exact Hres|]. split; [exact Hev|].
  etransitivity; [exact (f_equal (fun m => m !! sample_path) Hfs)|].
  apply lookup_delete_eq.
Defined.

Lemma second_exit_removes_nothing_witness :
  let E0 := sample_env nothing_fails in
  let s := after_local nothing_fails in
  let s1 := (_cluster__exit__ E0 None s).2 in
  let out := _cluster__exit__ E0 None s1 in
  constructed (self s) /\ persist_yaml (self s) = Some false /\
  (_cluster__exit__ E0 None s).1 = Ok tt /\
  out.1 = Ok tt /\
  new_events s1 out.2 = [EvClientClose; EvClusterExit None].
Proof.
  intros E0 s s1 out.
  assert (Hw : constructed (self s)) by (vm_compute; eauto 10).
  assert (Hb : persist_yaml (self s) = Some false) by (vm_compute; reflexivity).
  assert (H1 : _cluster__exit__ E0 None s = (Ok tt, s1))
    by (vm_compute; reflexivity).
  split; [exact Hw|]. split; [exact Hb|]. split; [vm_compute; reflexivity|].
  destruct (second_exit_removes_nothing E0 None s s1 Hw Hb H1) as (Hr & Hev & _).
  split; [exact Hr|exact Hev].
Defined.

Lemma cluster_by_priority_witness :
  Selector.cluster (Selector.host_of (Some 0) None) =
    Selector.janelia_lsf_cluster.
Proof.
  destruct (SelectorFacts.cluster_by_priority (Selector.host_of (Some 0) None))
    as (_ & [_ Hlsf] & _).
  apply Hlsf. split.
  - split; [vm_compute; eauto|]. vm_compute. intros Hc. discriminate Hc.
  - intros [[x Hx] _]. vm_compute in Hx. discriminate Hx.
Defined.

Lemma modify_dask_config_failure_keeps_options_witness :
  let E0 := sample_env open_fails in
  let out := modify_dask_config E0 {[ "a" := VInt 1 ]} None None fresh in
  out.1 = Raise (Failed (EvOpenWrite sample_path)) /\
  dask_config out.2 !! "a" = Some (VInt 1) /\
  fs out.2 = ∅ /\ yaml_path (self out.2) = None.
Proof.
  intros E0 out.
  assert (Hf : fails E0 (EvOpenWrite (config_file E0 None)) = true)
    by reflexivity.
  destruct (modify_dask_config_failure_keeps_options E0 {[ "a" := VInt 1 ]}
              None None fresh Hf) as (Hr & Hc & Hfs & Hself).
  split; [exact Hr|]. split; [|split].
  - etransitivity; [exact (f_equal (fun m => m !! "a") Hc)|].
    vm_compute. reflexivity.
  - exact Hfs.
  - exact (f_equal yaml_path Hself).
Defined.

Lemma modify_dask_config_snapshot_witness :
  let E0 := sample_env nothing_fails in
  let s := after_local nothing_fails in
  let out := modify_dask_config E0 {[ "a" := VInt 1 ]} (Some "mine.yaml")
               (Some true) s in
  out.1 = Ok tt /\
  yaml_path (self out.2) = Some "/home/ada/.config/dask/mine.yaml" /\
  persist_yaml (self out.2) = Some true /\
  fs out.2 !! "/home/ada/.config/dask/mine.yaml" =
    Some (yaml_dump E0 (dask_config out.2)) /\
  client (self out.2) = Some TheClient.
Proof.
  intros E0 s out.
  assert (Hrun : modify_dask_config E0 {[ "a" := VInt 1 ]} (Some "mine.yaml")
                   (Some true) s = (Ok tt, out.2)) by (vm_compute; reflexivity).
  destruct (modify_dask_config_snapshot E0 _ _ _ s out.2 Hrun)
    as (Hp & Hb & Hfile & _ & _ & Hcli & _).
  split; [vm_compute; reflexivity|]. split; [exact Hp|]. split; [exact Hb|].
  split; [exact Hfile|]. etransitivity; [exact Hcli|]. vm_compute. reflexivity.
Defined.

Lemma local_cluster_keywords_witness :
  let E0 := sample_env nothing_fails in
  let kwargs : dict := {[ "n_workers" := VInt 2 ]} in
  (let out := construct E0 (Call_local_cluster ∅ (Some (VStr "4GB")) kwargs)
                fresh in
   out.1 = Ok tt /\
   exists c,
     cluster (self out.2) = Some c /\
     new_spec_options c !! "host" = Some (VStr "") /\
     new_spec_options c !! "memory_limit" = Some (VStr "4GB") /\
     new_spec_options c !! "n_workers" = Some (VInt 2)) /\
  (let out := construct E0 (Call_local_cluster ∅ None kwargs) fresh in
   out.1 = Ok tt /\
   exists c,
     cluster (self out.2) = Some c /\
     new_spec_options c !! "memory_limit" = None).
Proof.
  intros E0 kwargs. split.
  - intros out.
    assert (Hrun : construct E0 (Call_local_cluster ∅ (Some (VStr "4GB")) kwargs)
                     fresh = (Ok tt, out.2)) by (vm_compute; reflexivity).
    destruct (local_cluster_keywords E0 _ _ _ fresh out.2 Hrun)
      as (_ & _ & c & Hc & _ & _ & Hhost & Hmem & Hother & _).
    split; [vm_compute; reflexivity|].
    exists c. split; [exact Hc|]. split; [exact Hhost|]. split; [exact Hmem|].
    etransitivity; [apply Hother; intros Hk; discriminate Hk|].
    vm_compute. reflexivity.
  - intros out.
    assert (Hrun : construct E0 (Call_local_cluster ∅ None kwargs)
                     fresh = (Ok tt, out.2)) by (vm_compute; reflexivity).
    destruct (local_cluster_keywords E0 _ _ _ fresh out.2 Hrun)
      as (_ & _ & c & Hc & _ & _ & _ & Hmem & _).
    split; [vm_compute; reflexivity|].
    exists c. split; [exact Hc|exact Hmem].
Defined.

Lemma local_cluster_failure_leaves_file_witness :
  let E0 := sample_env new_client_fails in
  let out := local_cluster__init__ E0 ∅ None ∅ fresh in
  out.1 <> Ok tt /\
  is_Some (fs out.2 !! sample_path) /\
  cluster (self out.2) = None /\
  EvNewLocalCluster {[ "host" := VStr "" ]} ∈ new_events fresh out.2 /\
  EvClusterExit None ∉ new_events fresh out.2.
Proof.
  intros E0 out.
  assert (Hopen : fails E0 (EvOpenWrite (config_file E0 None)) = false)
    by reflexivity.
  destruct (local_cluster_failure_leaves_file E0 ∅ None ∅ fresh Hopen
              (or_intror eq_refl))
    as (Hr & Hfile & _ & _ & Hcl & Hexit & Hnew).
  split; [exact Hr|]. split; [exact Hfile|]. split; [exact Hcl|].
  split; [exact (Hnew eq_refl)|exact (Hexit None)].
Defined.

Lemma remote_cluster_wraps_given_cluster_witness :
  let E0 := sample_env nothing_fails in
  let out := construct E0 (Call_remote_cluster foreign_pool ∅) fresh in
  out.1 = Ok tt /\
  cluster (self out.2) = Some foreign_pool /\
  new_events fresh out.2 = [EvOpenWrite sample_path; EvNewClient] /\
  get_dashboard out.2 = (Ok (Some "http://10.0.0.1:8787/status"), out.2).
Proof.
  intros E0 out.
  assert (Hrun : construct E0 (Call_remote_cluster foreign_pool ∅) fresh =
                 (Ok tt, out.2)) by (vm_compute; reflexivity).
  destruct (remote_cluster_wraps_given_cluster E0 _ _ fresh out.2 Hrun)
    as (Hc & Hev & _).
  split; [vm_compute; reflexivity|]. split; [exact Hc|]. split; [exact Hev|].
  vm_compute. reflexivity.
Defined.

Lemma get_dashboard_link_witness :
  let E0 := sample_env nothing_fails in
  (construct E0 slurm_defaults fresh).1 = Ok tt /\
  get_dashboard after_slurm =
    (Ok (Some "http://127.0.0.1:8787/status"), after_slurm).
Proof.
  intros E0.
  assert (Hrun : construct E0 slurm_defaults fresh = (Ok tt, after_slurm))
    by (vm_compute; reflexivity).
  split; [vm_compute; reflexivity|].
  destruct (get_dashboard_link E0 slurm_defaults fresh after_slurm)
    as [_ Hdash].
  exact (Hdash Hrun).
Defined.

Lemma slurm_cluster_needs_USER_witness :
  let out := slurm_cluster__init__ sample_env_no_user 4 1 None (Some 1)
               (Some 4) "3:59" ∅ ∅ fresh in
  environ sample_env_no_user !! "USER" = None /\
  out.1 = Raise (KeyError "USER") /\ new_events fresh out.2 = [].
Proof.
  intros out.
  assert (Hu : environ sample_env_no_user !! "USER" = None) by reflexivity.
  destruct (slurm_cluster_needs_USER sample_env_no_user 4 1 None (Some 1)
              (Some 4) "3:59" ∅ ∅ fresh Hu) as (Hr & Hev & _).
  split; [exact Hu|]. split; [exact Hr|exact Hev].
Defined.

Lemma slurm_cluster_rejects_reserved_keyword_witness :
  let E0 := sample_env nothing_fails in
  let kwargs : dict := {[ "memory" := VStr "1GB" ]} in
  let out := slurm_cluster__init__ E0 4 1 None (Some 1) (Some 4) "3:59"
               ∅ kwargs fresh in
  is_Some (kwargs !! "memory") /\ out.1 <> Ok tt /\
  out.1 = Raise (TypeError "multiple values for keyword argument").
Proof.
  intros E0 kwargs out.
  assert (Hk : "memory" ∈ reserved_keywords)
    by (do 2 apply list_elem_of_further; apply list_elem_of_here).
  assert (Hv : is_Some (kwargs !! "memory")) by (vm_compute; eauto).
  split; [exact Hv|]. split; [|vm_compute; reflexivity].
  exact (slurm_cluster_rejects_reserved_keyword E0 4 1 None (Some 1) (Some 4)
           "3:59" ∅ kwargs "memory" fresh Hk Hv).
Defined.

Lemma slurm_cluster_configuration_witness :
  let E0 := sample_env nothing_fails in
  let config : dict := {[ "distributed.comm.timeouts.tcp" := VStr "30s" ]} in
  let out := slurm_cluster__init__ E0 4 1 None (Some 1) (Some 4) "3:59"
               config ∅ fresh in
  out.1 = Ok tt /\
  dask_config out.2 !! "distributed.comm.timeouts.tcp" = Some (VStr "30s") /\
  dask_config out.2 !! "distributed.comm.timeouts.connect" =
    Some (VStr "180s") /\
  dask_config out.2 !! "temporary-directory" =
    Some (VStr "/local/workdir/temp/ada/").
Proof.
  intros E0 config out.
  assert (Hrun : slurm_cluster__init__ E0 4 1 None (Some 1) (Some 4) "3:59"
                   config ∅ fresh = (Ok tt, out.2))
    by (vm_compute; reflexivity).
  destruct (slurm_cluster_configuration E0 4 1 None (Some 1) (Some 4) "3:59"
              config ∅ fresh out.2 Hrun)
    as (user & Hu & Hgiven & Htmp & Hconn & _).
  assert (Huser : user = "ada").
  { vm_compute in Hu. by injection Hu as <-. }
  subst user.
  split; [vm_compute; reflexivity|].
  split; [apply Hgiven; vm_compute; reflexivity|].
  split; [apply Hconn; vm_compute; reflexivity|].
  apply Htmp. vm_compute. reflexivity.
Defined.

Lemma slurm_cluster_keywords_witness :
  let E0 := sample_env nothing_fails in
  let kwargs : dict := {[ "queue" := VStr "short" ]} in
  let out := slurm_cluster__init__ E0 4 2 None (Some 1) (Some 4) "3:59"
               ∅ kwargs fresh in
  out.1 = Ok tt /\
  exists c,
    cluster (self out.2) = Some c /\
    new_spec_options c !! "cores" = Some (VInt 4) /\
    new_spec_options c !! "processes" = Some (VInt 2) /\
    new_spec_options c !! "queue" = Some (VStr "short") /\
    new_spec_options c !! "log_directory" =
      Some (VStr "/work/dask_worker_logs_4242/") /\
    EvMkdir "/work/dask_worker_logs_4242/" ∈ new_events fresh out.2.
Proof.
  intros E0 kwargs out.
  assert (Hrun : slurm_cluster__init__ E0 4 2 None (Some 1) (Some 4) "3:59"
                   ∅ kwargs fresh = (Ok tt, out.2))
    by (vm_compute; reflexivity).
  destruct (slurm_cluster_keywords E0 4 2 None (Some 1) (Some 4) "3:59"
              ∅ kwargs fresh out.2 Hrun)
    as (c & Hc & Hcores & Hproc & _ & Hkeep & _ & Hlog & Hmk & _).
  split; [vm_compute; reflexivity|].
  exists c. split; [exact Hc|]. split; [exact Hcores|]. split; [exact Hproc|].
  split; [apply Hkeep; vm_compute; reflexivity|].
  split; [exact Hlog|]. apply Hmk. vm_compute. reflexivity.
Defined.

Lemma slurm_cluster_bounds_witness :
  let E0 := sample_env nothing_fails in
  let out := slurm_cluster__init__ E0 4 1 None None (Some 4) "3:59"
               ∅ ∅ fresh in
  out.1 = Ok tt /\
  min_workers (self out.2) = None /\ max_workers (self out.2) = Some 4 /\
  adapt (self out.2) = Some (policy None (Some 4)).
Proof.
  intros E0 out.
  assert (Hrun : slurm_cluster__init__ E0 4 1 None None (Some 4) "3:59"
                   ∅ ∅ fresh = (Ok tt, out.2))
    by (vm_compute; reflexivity).
  destruct (slurm_cluster_bounds E0 4 1 None None (Some 4) "3:59"
              ∅ ∅ fresh out.2 Hrun) as (_ & Hlo & Hhi & Had & _).
  split; [vm_compute; reflexivity|]. split; [exact Hlo|].
  split; [exact Hhi|exact Had].
Defined.

Lemma adapt_cluster_None_keeps_bound_witness :
  let E0 := sample_env nothing_fails in
  let out := adapt_cluster E0 (Some 2) None after_slurm in
  out.1 = Ok tt /\
  min_workers (self out.2) = Some 2 /\ max_workers (self out.2) = Some 4 /\
  adapt (self out.2) = Some (policy (Some 2) (Some 4)).
Proof.
  intros E0 out.
  assert (Hrun : adapt_cluster E0 (Some 2) None after_slurm = (Ok tt, out.2))
    by (vm_compute; reflexivity).
  destruct (adapt_cluster_None_keeps_bound E0 (Some 2) None after_slurm out.2
              Hrun) as (Hlo & Hhi & Had & _).
  split; [vm_compute; reflexivity|]. split; [exact Hlo|].
  split; [etransitivity; [exact Hhi|vm_compute; reflexivity]|].
  etransitivity; [exact Had|]. vm_compute. reflexivity.
Defined.

Lemma adapt_cluster_failure_keeps_new_bounds_witness :
  let E0 := sample_env adapt_fails in
  let out := adapt_cluster E0 (Some 2) (Some 9) after_slurm in
  out.1 = Raise (Failed (EvAdapt (policy (Some 2) (Some 9)))) /\
  min_workers (self out.2) = Some 2 /\ max_workers (self out.2) = Some 9 /\
  adapt (self out.2) = Some (policy (Some 1) (Some 4)).
Proof.
  intros E0 out.
  assert (Hc : exists c, cluster (self after_slurm) = Some c)
    by (vm_compute; eauto).
  destruct Hc as [c Hc].
  destruct (adapt_cluster_failure_keeps_new_bounds E0 (Some 2) (Some 9)
              after_slurm c Hc eq_refl) as (Hr & Hlo & Hhi & Had).
  split; [exact Hr|]. split; [exact Hlo|]. split; [exact Hhi|].
  etransitivity; [exact Had|]. vm_compute. reflexivity.
Defined.

Lemma change_worker_attributes_failures_witness :
  let E0 := sample_env adapt_fails in
  let kwargs := [("memory", VStr "30GB")] in
  let out := change_worker_attributes E0 (Some 2) (Some 5) kwargs
               after_slurm in
  out.1 = Raise (Failed (EvAdapt (policy (Some 2) (Some 5)))) /\
  new_events after_slurm out.2 =
    [EvScale 0; EvSetOption "memory" (VStr "30GB");
     EvAdapt (policy (Some 2) (Some 5))] /\
  exists c', cluster (self out.2) = Some c' /\
             new_spec_options c' !! "memory" = Some (VStr "30GB").
Proof.
  intros E0 kwargs out.
  assert (Hc : exists c, cluster (self after_slurm) = Some c)
    by (vm_compute; eauto).
  destruct Hc as [c Hc].
  destruct (change_worker_attributes_failures E0 (Some 2) (Some 5) kwargs
              after_slurm) as (_ & _ & Hadapt).
  destruct (Hadapt c Hc eq_refl eq_refl) as (Hr & Hev & Hc').
  split; [exact Hr|]. split; [exact Hev|].
  eexists. split; [exact Hc'|]. apply lookup_insert_eq.
Defined.

Lemma change_worker_attributes_frame_witness :
  let E0 := sample_env nothing_fails in
  let out := change_worker_attributes E0 (Some 2) (Some 5)
               [("memory", VStr "30GB")] after_slurm in
  is_Some (cluster (self after_slurm)) /\
  fs out.2 = fs after_slurm /\
  exists c', cluster (self out.2) = Some c' /\ backend_of c' = SLURM.
Proof.
  intros E0 out.
  assert (Hc : exists c, cluster (self after_slurm) = Some c /\
                         backend_of c = SLURM)
    by (vm_compute; eauto).
  destruct Hc as (c & Hc & Hb).
  destruct (change_worker_attributes_frame E0 (Some 2) (Some 5)
              [("memory", VStr "30GB")] after_slurm)
    as (Hfs & _ & _ & _ & _ & Hsame).
  destruct (Hsame c Hc) as (c' & Hc' & Hb' & _).
  split; [rewrite Hc; eauto|]. split; [exact Hfs|].
  exists c'. split; [exact Hc'|]. by rewrite Hb'.
Defined.

End ClusterMore.
